(** * FileHelper: text preparation from raw text and uploaded files

    A shallow embedding of [agentflow_cli/src/app/utils/file_helper.py]
    (class [FileHelper]) and the properties of its pipeline: source
    arbitration, text normalisation, file type and size gating, the
    decode fallback chain, the extraction delegate and batch processing.

    Python values are modelled as follows.
    - [str] is a sequence of Unicode code points: [pystr := list N].
    - [bytes] is [list byte].
    - Exceptions are values of [exn]; a call either returns or raises
      ([result]), and the observable file and extractor interactions of a
      call are collected in a [trace] of events.
    - An [UploadFile] is given by its name and by what reading it
      yields; the uploads of one batch are taken to be distinct objects,
      and closing one returns normally.
    - Logging is an observability side channel and is not modelled. *)

From Stdlib Require Import List NArith Bool String Ascii Lia.
From Stdlib.Strings Require Import Byte.
From Stdlib Require Import DecimalString.
From Stdlib Require Decimal.
Import ListNotations.

Local Open Scope N_scope.
Local Open Scope list_scope.

(* ================================================================= *)
(** ** Python strings *)

Module PyStr.

(** A Python [str]: a sequence of code points. *)
Definition pystr := list N.

(** An ASCII literal of the source as a [pystr]. *)
Definition lit (s : string) : pystr :=
  map N_of_ascii (list_ascii_of_string s).

(** [str.isspace] on one code point ([Py_UNICODE_ISSPACE]): the ASCII
    table for code points below 128, [_PyUnicode_IsWhitespace] above. *)
Definition isspace (c : N) : bool :=
  ((0x09 <=? c) && (c <=? 0x0D))
  || ((0x1C <=? c) && (c <=? 0x20))
  || (c =? 0x85) || (c =? 0xA0) || (c =? 0x1680)
  || ((0x2000 <=? c) && (c <=? 0x200A))
  || (c =? 0x2028) || (c =? 0x2029) || (c =? 0x202F)
  || (c =? 0x205F) || (c =? 0x3000).

Definition SPACE : N := 0x20.

(** [s.lstrip()]: drop the leading whitespace. *)
Fixpoint lstrip (s : pystr) : pystr :=
  match s with
  | [] => []
  | c :: s' => if isspace c then lstrip s' else s
  end.

(** [s.rstrip()]: drop the trailing whitespace. *)
Definition rstrip (s : pystr) : pystr := rev (lstrip (rev s)).

(** [s.strip()]: the slice between the first and the last
    non-whitespace code point. *)
Definition strip (s : pystr) : pystr := rstrip (lstrip s).

(** [s.split()] with no separator: the maximal runs of non-whitespace
    code points, in order.  [cur] is the word being scanned. *)
Fixpoint split_from (cur : pystr) (s : pystr) : list pystr :=
  match s with
  | [] => match cur with [] => [] | _ => [cur] end
  | c :: s' =>
      if isspace c then
        match cur with
        | [] => split_from [] s'
        | _ => cur :: split_from [] s'
        end
      else split_from (cur ++ [c]) s'
  end.

Definition split (s : pystr) : list pystr := split_from [] s.

(** [sep.join(parts)]. *)
Fixpoint join (sep : pystr) (parts : list pystr) : pystr :=
  match parts with
  | [] => []
  | [p] => p
  | p :: ps => p ++ sep ++ join sep ps
  end.

(** [s.lower()].  The source lowers file names only to compare their
    end with ASCII suffixes made of [.], [c], [d], [f], [o], [p], [r],
    [t], [x]; the only code points whose lowercase form is one of these
    are the ASCII ones, so the ASCII mapping decides every such test as
    the full Unicode mapping does. *)
Definition lower_char (c : N) : N :=
  if (0x41 <=? c) && (c <=? 0x5A) then c + 32 else c.

Definition lower (s : pystr) : pystr := map lower_char s.

Fixpoint startswith (s p : pystr) : bool :=
  match p, s with
  | [], _ => true
  | _ :: _, [] => false
  | a :: p', b :: s' => (a =? b) && startswith s' p'
  end.

(** [s.endswith(suffix)]. *)
Definition endswith (s suffix : pystr) : bool :=
  startswith (rev s) (rev suffix).

(** [s.endswith(tuple)]: true when some member is a suffix. *)
Definition endswith_any (s : pystr) (suffixes : list pystr) : bool :=
  existsb (endswith s) suffixes.

(** Decimal rendering of a number inside an f-string. *)
Definition str_of_N (n : N) : pystr :=
  lit (NilEmpty.string_of_uint (N.to_uint n)).

(** Truthiness of a [str]: non-empty. *)
Definition truthy (s : pystr) : bool :=
  match s with [] => false | _ => true end.

End PyStr.
Import PyStr.

(* ================================================================= *)
(** ** Codecs: [bytes.decode(encoding)] *)

Module Codec.

Definition bytes := list byte.

(** Outcome of [bytes.decode(encoding)] under the default strict error
    handling. *)
Inductive decode_outcome :=
| Decoded (s : pystr)
| UnicodeDecodeError
| LookupError.

Definition is_cont (b : N) : bool := (0x80 <=? b) && (b <=? 0xBF).

Definition low6 (b : N) : N := N.land b 0x3F.

(** Strict UTF-8: shortest forms only, no surrogates, nothing above
    U+10FFFF.  [None] is a [UnicodeDecodeError]. *)
Fixpoint utf8_points (bs : list N) : option pystr :=
  match bs with
  | [] => Some []
  | b0 :: r0 =>
      if b0 <? 0x80 then option_map (cons b0) (utf8_points r0)
      else if b0 <? 0xC2 then None
      else if b0 <? 0xE0 then
        match r0 with
        | b1 :: r1 =>
            if is_cont b1
            then option_map
                   (cons (N.lor (N.shiftl (N.land b0 0x1F) 6) (low6 b1)))
                   (utf8_points r1)
            else None
        | _ => None
        end
      else if b0 <? 0xF0 then
        match r0 with
        | b1 :: b2 :: r2 =>
            if is_cont b1 && is_cont b2
               && negb ((b0 =? 0xE0) && (b1 <? 0xA0))
               && negb ((b0 =? 0xED) && (0x9F <? b1))
            then option_map
                   (cons (N.lor (N.shiftl (N.land b0 0x0F) 12)
                            (N.lor (N.shiftl (low6 b1) 6) (low6 b2))))
                   (utf8_points r2)
            else None
        | _ => None
        end
      else if b0 <? 0xF5 then
        match r0 with
        | b1 :: b2 :: b3 :: r3 =>
            if is_cont b1 && is_cont b2 && is_cont b3
               && negb ((b0 =? 0xF0) && (b1 <? 0x90))
               && negb ((b0 =? 0xF4) && (0x8F <? b1))
            then option_map
                   (cons (N.lor (N.shiftl (N.land b0 0x07) 18)
                            (N.lor (N.shiftl (low6 b1) 12)
                               (N.lor (N.shiftl (low6 b2) 6) (low6 b3)))))
                   (utf8_points r3)
            else None
        | _ => None
        end
      else None
  end.

Definition decode_utf8 (bs : bytes) : option pystr :=
  utf8_points (map Byte.to_N bs).

(** latin-1 (ISO 8859-1): byte [b] is code point [b]. *)
Definition decode_latin1 (bs : bytes) : pystr := map Byte.to_N bs.

(** cp1252: the decoding table of the codec; five bytes are undefined. *)
Definition cp1252_point (b : N) : option N :=
  if (b <? 0x80) || (0x9F <? b) then Some b
  else
    match b with
    | 0x80 => Some 0x20AC
    | 0x82 => Some 0x201A | 0x83 => Some 0x0192 | 0x84 => Some 0x201E
    | 0x85 => Some 0x2026 | 0x86 => Some 0x2020 | 0x87 => Some 0x2021
    | 0x88 => Some 0x02C6 | 0x89 => Some 0x2030 | 0x8A => Some 0x0160
    | 0x8B => Some 0x2039 | 0x8C => Some 0x0152 | 0x8E => Some 0x017D
    | 0x91 => Some 0x2018 | 0x92 => Some 0x2019 | 0x93 => Some 0x201C
    | 0x94 => Some 0x201D | 0x95 => Some 0x2022 | 0x96 => Some 0x2013
    | 0x97 => Some 0x2014 | 0x98 => Some 0x02DC | 0x99 => Some 0x2122
    | 0x9A => Some 0x0161 | 0x9B => Some 0x203A | 0x9C => Some 0x0153
    | 0x9E => Some 0x017E | 0x9F => Some 0x0178
    | _ => None
    end.

Fixpoint cp1252_points (bs : list N) : option pystr :=
  match bs with
  | [] => Some []
  | b :: r =>
      match cp1252_point b, cp1252_points r with
      | Some c, Some s => Some (c :: s)
      | _, _ => None
      end
  end.

Definition decode_cp1252 (bs : bytes) : option pystr :=
  cp1252_points (map Byte.to_N bs).

Definition of_option (o : option pystr) : decode_outcome :=
  match o with Some s => Decoded s | None => UnicodeDecodeError end.

(** Codec lookup by name; [iso-8859-1] is an alias of [latin-1]. *)
Definition decode (bs : bytes) (encoding : string) : decode_outcome :=
  if String.eqb encoding "utf-8" then of_option (decode_utf8 bs)
  else if String.eqb encoding "latin-1" then Decoded (decode_latin1 bs)
  else if String.eqb encoding "cp1252" then of_option (decode_cp1252 bs)
  else if String.eqb encoding "iso-8859-1" then Decoded (decode_latin1 bs)
  else LookupError.

End Codec.
Import Codec.

(* ================================================================= *)
(** ** Exceptions, results and effects *)

Module Effects.

(** The exceptions the module raises or meets.  [OtherException] stands
    for any exception of another class raised by a collaborator (the
    upload object or the extractor); it carries its [str()]. *)
Inductive exn :=
| ValueError (msg : pystr)
| HTTPException (status_code : N) (detail : pystr)
| OtherException (msg : pystr).

(** [str(e)], as used by [{e!s}] in f-strings.  An [HTTPException]
    renders as its status code, a colon and its detail (the [__str__]
    of the framework's class); the other exceptions render as their
    message. *)
Definition exn_str (e : exn) : pystr :=
  match e with
  | ValueError msg => msg
  | HTTPException status_code detail =>
      str_of_N status_code ++ lit ": " ++ detail
  | OtherException msg => msg
  end.

Inductive result (A : Type) :=
| Ok (a : A)
| Raise (e : exn).
Arguments Ok {A} a.
Arguments Raise {A} e.

(** An uploaded file ([UploadFile]): its [filename] attribute, which
    may be [None], and what [await file.read()] does. *)
Record UploadFile := {
  filename : option pystr;
  payload : result bytes
}.

(** The extraction capability: [extractor.extract(source, filename)]
    returns a string or raises. *)
Record Extractor := {
  extract : bytes -> pystr -> result pystr
}.

(** Interactions with the collaborators, in the order they happen. *)
Inductive event :=
| EvRead (file : UploadFile)
| EvClose (file : UploadFile)
| EvExtract (source : bytes) (name : pystr).

Definition trace := list event.

(** A computation: its outcome and the events it performed. *)
Definition M (A : Type) : Type := (result A * trace)%type.

Definition ret {A} (a : A) : M A := (Ok a, []).

Definition raise {A} (e : exn) : M A := (Raise e, []).

Definition bind {A B} (m : M A) (k : A -> M B) : M B :=
  match m with
  | (Ok a, t) => let (r, t') := k a in (r, t ++ t')
  | (Raise e, t) => (Raise e, t)
  end.

(** [try: m  except Exception as e: handler e]. *)
Definition try_except {A} (m : M A) (handler : exn -> M A) : M A :=
  match m with
  | (Ok a, t) => (Ok a, t)
  | (Raise e, t) => let (r, t') := handler e in (r, t ++ t')
  end.

(** [try: m  finally: cleanup], for a cleanup that returns normally. *)
Definition try_finally {A} (m : M A) (cleanup : trace) : M A :=
  let (r, t) := m in (r, t ++ cleanup).

(** Perform one interaction whose outcome is [r]. *)
Definition perform {A} (ev : event) (r : result A) : M A := (r, [ev]).

Definition outcome {A} (m : M A) : result A := fst m.

(** The exception that leaves a computation, if one does. *)
Definition raised {A} (m : M A) : option exn :=
  match fst m with
  | Raise e => Some e
  | Ok _ => None
  end.
Definition events {A} (m : M A) : trace := snd m.

End Effects.
Import Effects.

Declare Scope py_scope.
Delimit Scope py_scope with py.
Notation "x <- m ;; k" := (bind m (fun x => k))
  (at level 61, m at next level, right associativity) : py_scope.
Notation "m ;;; k" := (bind m (fun _ => k))
  (at level 61, right associativity) : py_scope.
Local Open Scope py_scope.

(* ================================================================= *)
(** ** The class [FileHelper] *)

Section FileHelper.

(** The module-level name [AsyncTextExtractor]: the extractor when the
    import of [textxtract] succeeded, [None] otherwise. *)
Variable AsyncTextExtractor : option Extractor.

Definition MAX_FILE_SIZE : N := 10 * 1024 * 1024.

Definition SUPPORTED_TEXT_EXTENSIONS : list pystr :=
  [lit ".txt"; lit ".rtf"].

Definition SUPPORTED_DOC_EXTENSIONS : list pystr :=
  [lit ".pdf"; lit ".doc"; lit ".docx"].

Definition SUPPORTED_EXTENSIONS : list pystr :=
  SUPPORTED_TEXT_EXTENSIONS ++ SUPPORTED_DOC_EXTENSIONS.

Definition ENCODING_FALLBACKS : list string :=
  ["utf-8"; "latin-1"; "cp1252"; "iso-8859-1"]%string.

(** [" ".join(text.strip().split())], lines 127-128. *)
Definition normalize (text : pystr) : pystr :=
  join (lit " ") (split (strip text)).

Definition _process_text_input (text : pystr) : M pystr :=
  let text := normalize text in
  if negb (truthy text)
  then raise (ValueError (lit "Provided text is empty after processing"))
  else ret text.

Definition _validate_file_type (filename : pystr) : M unit :=
  if negb (existsb (fun ext => endswith (lower filename) ext)
             SUPPORTED_EXTENSIONS)
  then
    let supported_list := join (lit ", ") SUPPORTED_EXTENSIONS in
    raise (HTTPException 415
             (lit "Unsupported file type. Supported types: "
                ++ supported_list))
  else ret tt.

(** [f"{max_size_mb:.1f}"] for [max_size_mb = MAX_FILE_SIZE / 1024 /
    1024]: the limit is a whole number of MiB, so the quotient is an
    integral float and prints with one zero decimal. *)
Definition max_size_mb_1f : pystr :=
  str_of_N (MAX_FILE_SIZE / 1024 / 1024) ++ lit ".0".

Definition len (file_content : bytes) : N :=
  N.of_nat (List.length file_content).

Definition _validate_file_size (file_content : bytes) (filename : pystr)
  : M unit :=
  let file_size := len file_content in
  if MAX_FILE_SIZE <? file_size
  then raise (HTTPException 413
                (lit "File too large. Maximum size is "
                   ++ max_size_mb_1f ++ lit "MB"))
  else if file_size =? 0
  then raise (HTTPException 400 (lit "File is empty"))
  else ret tt.

(** The loop of [_decode_text_file] over the encodings still to try. *)
Fixpoint decode_loop (encodings : list string) (file_content : bytes)
  : option pystr :=
  match encodings with
  | [] => None
  | encoding :: rest =>
      match decode file_content encoding with
      | Decoded decoded => Some decoded
      | UnicodeDecodeError | LookupError => decode_loop rest file_content
      end
  end.

Definition _decode_text_file (file_content : bytes) (filename : pystr)
  : M pystr :=
  match decode_loop ENCODING_FALLBACKS file_content with
  | Some decoded => ret decoded
  | None =>
      raise (HTTPException 400
               (lit "Unable to decode text file. Tried encodings: "
                  ++ lit " "
                  ++ join (lit ", ") (map lit ENCODING_FALLBACKS)))
  end.

Definition _extract_text_from_file (file_content : bytes)
  (filename : pystr) : M pystr :=
  match AsyncTextExtractor with
  | None =>
      raise (HTTPException 500
               (lit "Text extraction not available. Please install textxtract library."))
  | Some extractor =>
      try_except
        (extracted_text <-
           perform (EvExtract file_content filename)
             (extract extractor file_content filename) ;;
         if negb (truthy extracted_text)
            || negb (truthy (strip extracted_text))
         then raise (HTTPException 400
                       (lit "No text could be extracted from the file '"
                          ++ filename ++ lit "'"))
         else ret (strip extracted_text))
        (fun e =>
           match e with
           | HTTPException _ _ => raise e
           | _ =>
               raise (HTTPException 500
                        (lit "Failed to extract text from '"
                           ++ filename ++ lit "': " ++ exn_str e))
           end)
  end.

(** [f"{file.filename}"]: the name, or [None] printed. *)
Definition fmt_filename (file : UploadFile) : pystr :=
  match filename file with
  | Some name => name
  | None => lit "None"
  end.

Definition _process_file_input (file : UploadFile) : M pystr :=
  try_finally
    (try_except
       (match filename file with
        | None =>
            raise (HTTPException 400 (lit "File must have a filename"))
        | Some name =>
            if negb (truthy name)
            then raise (HTTPException 400 (lit "File must have a filename"))
            else
              _validate_file_type name ;;;
              file_content <- perform (EvRead file) (payload file) ;;
              _validate_file_size file_content name ;;;
              if endswith_any (lower name) SUPPORTED_TEXT_EXTENSIONS
              then _decode_text_file file_content name
              else _extract_text_from_file file_content name
        end)
       (fun e =>
          match e with
          | HTTPException _ _ => raise e
          | _ =>
              raise (HTTPException 500
                       (lit "Error processing file '"
                          ++ fmt_filename file ++ lit "': " ++ exn_str e))
          end))
    [EvClose file].

(** Truthiness of an optional [str] argument: [None] and the empty
    string are falsy. *)
Definition text_truthy (text : option pystr) : bool :=
  match text with
  | Some t => truthy t
  | None => false
  end.

(** Truthiness of an optional [UploadFile]: only [None] is falsy. *)
Definition file_truthy (file : option UploadFile) : bool :=
  match file with
  | Some _ => true
  | None => false
  end.

(** The call [self._process_file_input(file)] of line 77 on the optional
    argument.  On [None] the attribute accesses of the body, of its
    handler and of its [finally] block all fail, and the last
    [AttributeError] is the one that leaves the call. *)
Definition call_process_file_input (file : option UploadFile) : M pystr :=
  match file with
  | Some f => _process_file_input f
  | None =>
      raise (OtherException
               (lit "'NoneType' object has no attribute 'close'"))
  end.

Definition prepare_text (text : option pystr) (file : option UploadFile)
  : M pystr :=
  if negb (text_truthy text) && negb (file_truthy file)
  then raise (ValueError (lit "Either 'text' or 'file' must be provided"))
  else
    match text with
    | Some t =>
        if truthy t then _process_text_input t
        else call_process_file_input file
    | None => call_process_file_input file
    end.

(** The [for] loop of [prepare_text_from_files]; [results] is the list
    built so far. *)
Fixpoint files_loop (files : list UploadFile) (results : list pystr)
  : M (list pystr) :=
  match files with
  | [] => ret results
  | file :: rest =>
      results' <-
        try_except
          (text <- _process_file_input file ;;
           ret (results ++ [text]))
          (fun e =>
             raise (HTTPException 400
                      (lit "Failed to process file '"
                         ++ fmt_filename file ++ lit "': " ++ exn_str e))) ;;
      files_loop rest results'
  end.

Definition prepare_text_from_files (files : list UploadFile)
  : M (list pystr) :=
  match files with
  | [] => raise (ValueError (lit "At least one file must be provided"))
  | _ => files_loop files []
  end.

End FileHelper.

(* ================================================================= *)
(** ** The specification's reading of normalisation *)

(** Follows the specification's words, "collapse all internal
    whitespace runs (including newlines/tabs) to single ASCII spaces":
    each maximal run of whitespace is replaced by one [SPACE], every
    other code point is kept. *)
Fixpoint collapse_runs (s : pystr) : pystr :=
  match s with
  | [] => []
  | c :: s' =>
      if isspace c then
        match s' with
        | d :: _ =>
            if isspace d then collapse_runs s'
            else SPACE :: collapse_runs s'
        | [] => [SPACE]
        end
      else c :: collapse_runs s'
  end.

(** Follows the specification's words, "strip leading/trailing
    whitespace, then collapse". *)
Definition spec_normalize (t : pystr) : pystr :=
  collapse_runs (strip t).

(** All code points of [s] are whitespace. *)
Definition all_space (s : pystr) : bool := forallb isspace s.

(** No code point of [s] is whitespace. *)
Definition no_space (s : pystr) : bool :=
  forallb (fun c => negb (isspace c)) s.

(** A word: non-empty and free of whitespace. *)
Definition is_word (w : pystr) : Prop := w <> [] /\ no_space w = true.

(** The test of [_validate_file_type]: some supported suffix ends the
    lowered name. *)
Definition supported (name : pystr) : bool :=
  existsb (fun ext => endswith (lower name) ext) SUPPORTED_EXTENSIONS.

(** The test of the dispatch in [_process_file_input]: a plain-text
    suffix ends the lowered name. *)
Definition textual (name : pystr) : bool :=
  endswith_any (lower name) SUPPORTED_TEXT_EXTENSIONS.

(** Follows the specification's words for the extraction delegate: an
    empty or all-whitespace extraction is the no-text error, any other
    is returned trimmed. *)
Definition extraction_result (name s : pystr) : result pystr :=
  if all_space s
  then Raise (HTTPException 400
                (lit "No text could be extracted from the file '"
                   ++ name ++ lit "'"))
  else Ok (strip s).

(** The exception raised by the handler of the batch loop (lines
    105-109) for a failure [e] of [file]. *)
Definition batch_failure (file : UploadFile) (e : exn) : exn :=
  HTTPException 400
    (lit "Failed to process file '"
       ++ fmt_filename file ++ lit "': " ++ exn_str e).

(** [file] is processed to [r] by [_process_file_input]. *)
Definition processed (ate : option Extractor) (file : UploadFile)
  (r : pystr) : Prop :=
  outcome (_process_file_input ate file) = Ok r.

(** The interactions of processing each file of [files] in turn. *)
Definition events_of (ate : option Extractor) (files : list UploadFile)
  : trace :=
  flat_map (fun f => events (_process_file_input ate f)) files.

(* ================================================================= *)
(** ** The exits of file processing *)

(** The handler of [_process_file_input] (lines 165-171) applied to
    [e]: an [HTTPException] is raised again, anything else is wrapped
    into a 500. *)
Definition processing_failure (file : UploadFile) (e : exn) : exn :=
  match e with
  | HTTPException _ _ => e
  | _ =>
      HTTPException 500
        (lit "Error processing file '"
           ++ fmt_filename file ++ lit "': " ++ exn_str e)
  end.

(** The handler of [_extract_text_from_file] (lines 285-291) applied to
    [e]. *)
Definition extraction_failure (name : pystr) (e : exn) : exn :=
  match e with
  | HTTPException _ _ => e
  | _ =>
      HTTPException 500
        (lit "Failed to extract text from '"
           ++ name ++ lit "': " ++ exn_str e)
  end.

(** What the decode chain returns for [bs]. *)
Definition decoded_text (bs : bytes) : pystr :=
  match decode_utf8 bs with
  | Some s => s
  | None => decode_latin1 bs
  end.

(** The runs of [_process_file_input ate file], one constructor for
    each way out of lines 149-174, with the outcome and the
    interactions of that way. *)
Inductive file_run (ate : option Extractor) (file : UploadFile)
  : M pystr -> Prop :=
| run_no_name :
    filename file = None \/ filename file = Some [] ->
    file_run ate file
      (Raise (HTTPException 400 (lit "File must have a filename")),
       [EvClose file])
| run_unsupported name :
    filename file = Some name -> name <> [] ->
    supported name = false ->
    file_run ate file
      (Raise (HTTPException 415
                (lit "Unsupported file type. Supported types: .txt, .rtf, .pdf, .doc, .docx")),
       [EvClose file])
| run_read_fault name e :
    filename file = Some name -> name <> [] ->
    supported name = true ->
    payload file = Raise e ->
    file_run ate file
      (Raise (processing_failure file e), [EvRead file; EvClose file])
| run_too_large name bs :
    filename file = Some name -> name <> [] ->
    supported name = true ->
    payload file = Ok bs -> MAX_FILE_SIZE < len bs ->
    file_run ate file
      (Raise (HTTPException 413
                (lit "File too large. Maximum size is 10.0MB")),
       [EvRead file; EvClose file])
| run_empty name bs :
    filename file = Some name -> name <> [] ->
    supported name = true ->
    payload file = Ok bs -> len bs = 0 ->
    file_run ate file
      (Raise (HTTPException 400 (lit "File is empty")),
       [EvRead file; EvClose file])
| run_decoded name bs :
    filename file = Some name -> name <> [] ->
    supported name = true ->
    payload file = Ok bs -> 0 < len bs -> len bs <= MAX_FILE_SIZE ->
    textual name = true ->
    file_run ate file
      (Ok (decoded_text bs), [EvRead file; EvClose file])
| run_unavailable name bs :
    filename file = Some name -> name <> [] ->
    supported name = true ->
    payload file = Ok bs -> 0 < len bs -> len bs <= MAX_FILE_SIZE ->
    textual name = false ->
    ate = None ->
    file_run ate file
      (Raise (HTTPException 500
                (lit "Text extraction not available. Please install textxtract library.")),
       [EvRead file; EvClose file])
| run_extracted name bs extractor s :
    filename file = Some name -> name <> [] ->
    supported name = true ->
    payload file = Ok bs -> 0 < len bs -> len bs <= MAX_FILE_SIZE ->
    textual name = false ->
    ate = Some extractor ->
    extract extractor bs name = Ok s ->
    file_run ate file
      (extraction_result name s,
       [EvRead file; EvExtract bs name; EvClose file])
| run_extract_fault name bs extractor e :
    filename file = Some name -> name <> [] ->
    supported name = true ->
    payload file = Ok bs -> 0 < len bs -> len bs <= MAX_FILE_SIZE ->
    textual name = false ->
    ate = Some extractor ->
    extract extractor bs name = Raise e ->
    file_run ate file
      (Raise (extraction_failure name e),
       [EvRead file; EvExtract bs name; EvClose file]).


(** Not a whitespace code point. *)
Definition nonspace (c : N) : bool := negb (isspace c).

(** A byte of the ASCII range. *)
Definition ascii_byte (b : byte) : bool := Byte.to_N b <? 0x80.

(* ================================================================= *)
(** ** Sample uploads and extractors *)

Module Samples.

(** [notes.txt] holding the five bytes of [hello]. *)
Definition notes_txt : UploadFile :=
  {| filename := Some (lit "notes.txt");
     payload := Ok [x68; x65; x6c; x6c; x6f] |}.

(** [cafe.TXT] holding [caf] and the byte [E9], which is not UTF-8. *)
Definition cafe_txt : UploadFile :=
  {| filename := Some (lit "cafe.TXT");
     payload := Ok [x63; x61; x66; xe9] |}.

(** [report.xlsx]: a suffix outside the supported list. *)
Definition report_xlsx : UploadFile :=
  {| filename := Some (lit "report.xlsx");
     payload := Ok [x50; x4b] |}.

(** [scan.pdf]: a binary document. *)
Definition scan_pdf : UploadFile :=
  {| filename := Some (lit "scan.pdf");
     payload := Ok [x25; x50; x44; x46] |}.

(** [empty.txt]: a payload of zero bytes. *)
Definition empty_txt : UploadFile :=
  {| filename := Some (lit "empty.txt"); payload := Ok [] |}.

(** A payload of [n] zero bytes. *)
Definition zeros (n : N) : bytes := repeat x00 (N.to_nat n).

(** [huge.pdf]: one byte more than [MAX_FILE_SIZE]. *)
Definition huge_pdf : UploadFile :=
  {| filename := Some (lit "huge.pdf");
     payload := Ok (zeros (MAX_FILE_SIZE + 1)) |}.

(** [broken.txt]: reading the upload raises. *)
Definition broken_txt : UploadFile :=
  {| filename := Some (lit "broken.txt");
     payload := Raise (OtherException (lit "read failed")) |}.

(** An extractor that finds a title with blanks around and inside. *)
Definition title_extractor : Extractor :=
  {| extract := fun _ _ => Ok (lit "  Annual   Report ") |}.

(** An extractor that finds only blanks. *)
Definition blank_extractor : Extractor :=
  {| extract := fun _ _ => Ok (lit "   ") |}.



(** [NOTES.RTF], upper case, holding [hi] and a line feed. *)
Definition notes_rtf : UploadFile :=
  {| filename := Some (lit "NOTES.RTF");
     payload := Ok [x68; x69; x0a] |}.

(** An upload without a name. *)
Definition nameless : UploadFile :=
  {| filename := None; payload := Ok [x68; x69] |}.

End Samples.

(* ================================================================= *)
(** ** Facts about strings *)

Example utf8_euro :
  decode_utf8 [xe2; x82; xac] = Some [0x20AC].
Proof. reflexivity. Qed.

Example utf8_overlong_rejected : decode_utf8 [xc0; x80] = None.
Proof. reflexivity. Qed.

Example utf8_surrogate_rejected : decode_utf8 [xed; xa0; x80] = None.
Proof. reflexivity. Qed.

Example utf8_astral : decode_utf8 [xf0; x9f; x98; x80] = Some [0x1F600].
Proof. reflexivity. Qed.

Example cp1252_hole : decode_cp1252 [x41; x81] = None.
Proof. reflexivity. Qed.

Example split_example :
  split (lit "  a b
	c  ") = [lit "a"; lit "b"; lit "c"].
Proof. reflexivity. Qed.

Example strip_example :
  strip (lit "  a  b  ") = lit "a  b".
Proof. reflexivity. Qed.

Example endswith_example :
  endswith (lower (lit "Report.DOCX")) (lit ".docx") = true
  /\ supported (lit "report.xlsx") = false
  /\ textual (lit "notes.TXT") = true.
Proof. repeat split. Qed.

Example exn_str_example :
  exn_str (HTTPException 415 (lit "x")) = lit "415: x".
Proof. reflexivity. Qed.

Example decode_fallback_example :
  _decode_text_file [x63; x61; x66; xe9] (lit "cafe.TXT") =
    (Ok [0x63; 0x61; 0x66; 0xE9], [])
  /\ _decode_text_file [x63; x61; x66; xc3; xa9] (lit "cafe.txt") =
    (Ok [0x63; 0x61; 0x66; 0xE9], []).
Proof. split; reflexivity. Qed.

Example normalize_example :
  normalize [0xA0; 0x61; 0x09; 0x2028; 0x62; 0x0A] = lit "a b".
Proof. reflexivity. Qed.

Section StringFacts.

Lemma lstrip_all_space s : lstrip s = [] <-> all_space s = true.
Proof.
  induction s as [|c s IH]; simpl; [tauto|].
  destruct (isspace c); simpl; [exact IH|].
  split; discriminate.
Qed.

Lemma lstrip_split s :
  exists pre, s = pre ++ lstrip s /\ all_space pre = true.
Proof.
  induction s as [|c s [pre [E A]]]; simpl.
  - exists []; auto.
  - destruct (isspace c) eqn:Hc.
    + exists (c :: pre); simpl. rewrite Hc, A. split; [now f_equal|reflexivity].
    + exists []; auto.
Qed.

Lemma lstrip_head s c r : lstrip s = c :: r -> isspace c = false.
Proof.
  induction s as [|x s IH]; simpl; [discriminate|].
  destruct (isspace x) eqn:Hx; [exact IH|].
  intros E; injection E as -> _; exact Hx.
Qed.

Lemma lstrip_idem s : lstrip (lstrip s) = lstrip s.
Proof.
  destruct (lstrip s) as [|c r] eqn:E; [reflexivity|].
  simpl. now rewrite (lstrip_head _ _ _ E).
Qed.

Lemma lstrip_snoc l c :
  lstrip (l ++ [c]) =
  match lstrip l with
  | [] => lstrip [c]
  | r => r ++ [c]
  end.
Proof.
  induction l as [|x l IH]; [reflexivity|].
  simpl. destruct (isspace x); [exact IH|reflexivity].
Qed.

Lemma all_space_rev s : all_space (rev s) = all_space s.
Proof.
  unfold all_space. induction s as [|c s IH]; [reflexivity|].
  simpl. rewrite forallb_app, IH. simpl. rewrite andb_true_r.
  apply andb_comm.
Qed.

Lemma rstrip_snoc s c :
  rstrip (s ++ [c]) = if isspace c then rstrip s else s ++ [c].
Proof.
  unfold rstrip. rewrite rev_unit. simpl.
  destruct (isspace c); [reflexivity|].
  simpl. now rewrite rev_involutive.
Qed.

Lemma rstrip_cons c s :
  rstrip (c :: s) =
  match rstrip s with
  | [] => if isspace c then [] else [c]
  | r => c :: r
  end.
Proof.
  unfold rstrip. simpl rev at 2. rewrite lstrip_snoc.
  destruct (lstrip (rev s)) as [|x r].
  - simpl. now destruct (isspace c).
  - rewrite rev_unit. destruct (rev (x :: r)) eqn:E; [|reflexivity].
    simpl in E. now destruct (rev r).
Qed.

Lemma rstrip_all_space s : rstrip s = [] <-> all_space s = true.
Proof.
  unfold rstrip. rewrite <- all_space_rev, <- lstrip_all_space.
  split; intros H.
  - apply (f_equal (@rev N)) in H. now rewrite rev_involutive in H.
  - now rewrite H.
Qed.

Lemma rstrip_split s :
  exists post, s = rstrip s ++ post /\ all_space post = true.
Proof.
  destruct (lstrip_split (rev s)) as [pre [E A]].
  exists (rev pre). split.
  - unfold rstrip. rewrite <- rev_app_distr, <- E. now rewrite rev_involutive.
  - now rewrite all_space_rev.
Qed.

Lemma rstrip_idem s : rstrip (rstrip s) = rstrip s.
Proof.
  unfold rstrip. now rewrite rev_involutive, lstrip_idem.
Qed.

Lemma rstrip_tail c s : rstrip (c :: s) = c :: s -> rstrip s = s.
Proof.
  rewrite rstrip_cons. destruct (rstrip s) as [|x r] eqn:E.
  - destruct (isspace c); [discriminate|]. now intros [= <-].
  - now intros [= <-].
Qed.

Lemma rstrip_space_head c s :
  isspace c = true -> rstrip (c :: s) = c :: s -> all_space s = false.
Proof.
  intros Hc. rewrite rstrip_cons.
  destruct (rstrip s) as [|x r] eqn:E.
  - rewrite Hc. discriminate.
  - intros _. destruct (all_space s) eqn:A; [|reflexivity].
    apply rstrip_all_space in A. congruence.
Qed.

(** [strip] keeps a slice of the string: only whitespace is dropped, and
    only at the two ends. *)
Lemma strip_split s :
  exists pre post,
    s = pre ++ strip s ++ post
    /\ all_space pre = true /\ all_space post = true.
Proof.
  destruct (lstrip_split s) as [pre [E A]].
  destruct (rstrip_split (lstrip s)) as [post [E' A']].
  exists pre, post. unfold strip. now rewrite <- E', <- E.
Qed.

Lemma strip_empty_iff s : strip s = [] <-> all_space s = true.
Proof.
  unfold strip. rewrite rstrip_all_space.
  destruct (lstrip_split s) as [pre [E A]].
  split; intros H.
  - rewrite E. unfold all_space in *. rewrite forallb_app, A. exact H.
  - rewrite E in H. unfold all_space in *. rewrite forallb_app in H.
    now apply andb_true_iff in H.
Qed.

Lemma strip_head s c r : strip s = c :: r -> isspace c = false.
Proof.
  unfold strip. intros E.
  destruct (rstrip_split (lstrip s)) as [post [E' _]].
  rewrite E in E'. simpl in E'. now apply lstrip_head in E'.
Qed.

Lemma strip_rstrip s : rstrip (strip s) = strip s.
Proof. unfold strip. apply rstrip_idem. Qed.

End StringFacts.

Section SplitFacts.

Lemma no_space_snoc w c :
  no_space w = true -> isspace c = false -> no_space (w ++ [c]) = true.
Proof.
  unfold no_space. intros Hw Hc. rewrite forallb_app, Hw. simpl.
  now rewrite Hc.
Qed.

Lemma split_from_nil cur :
  split_from cur [] = match cur with [] => [] | _ => [cur] end.
Proof. reflexivity. Qed.

Lemma split_from_space cur c s :
  isspace c = true ->
  split_from cur (c :: s) =
  match cur with [] => split_from [] s | _ => cur :: split_from [] s end.
Proof. intros H. simpl. now rewrite H. Qed.

Lemma split_from_nonspace cur c s :
  isspace c = false ->
  split_from cur (c :: s) = split_from (cur ++ [c]) s.
Proof. intros H. simpl. now rewrite H. Qed.

Lemma collapse_runs_nonspace c s :
  isspace c = false -> collapse_runs (c :: s) = c :: collapse_runs s.
Proof. intros H. simpl. now rewrite H. Qed.

Lemma collapse_runs_space c d s :
  isspace c = true ->
  collapse_runs (c :: d :: s) =
  if isspace d then collapse_runs (d :: s)
  else SPACE :: collapse_runs (d :: s).
Proof.
  intros H. change (collapse_runs (c :: d :: s)) with
    (if isspace c then
       if isspace d then collapse_runs (d :: s)
       else SPACE :: collapse_runs (d :: s)
     else c :: collapse_runs (d :: s)).
  now rewrite H.
Qed.

(** Scanning a whitespace-free stretch extends the current word. *)
Lemma split_from_word w : forall cur s,
  no_space w = true ->
  split_from cur (w ++ s) = split_from (cur ++ w) s.
Proof.
  induction w as [|c w IH]; intros cur s H.
  - now rewrite app_nil_r.
  - simpl in H. apply andb_true_iff in H as [Hc Hw].
    apply negb_true_iff in Hc. simpl. rewrite Hc.
    rewrite IH by assumption. now rewrite <- app_assoc.
Qed.

Lemma split_from_words s : forall cur,
  no_space cur = true -> Forall is_word (split_from cur s).
Proof.
  induction s as [|c s IH]; intros cur H; simpl.
  - destruct cur; constructor; [|constructor]. split; [discriminate|exact H].
  - destruct (isspace c) eqn:Hc.
    + destruct cur as [|x cur]; [now apply IH|].
      constructor; [split; [discriminate|exact H]|now apply IH].
    + apply IH. now apply no_space_snoc.
Qed.

Lemma split_words s : Forall is_word (split s).
Proof. now apply split_from_words. Qed.

Lemma split_from_empty_iff s : forall cur,
  split_from cur s = [] <-> cur = [] /\ all_space s = true.
Proof.
  induction s as [|c s IH]; intros cur; simpl.
  - destruct cur; split; try tauto; try discriminate. intros [? _]; discriminate.
  - destruct (isspace c) eqn:Hc; simpl.
    + destruct cur.
      * rewrite IH. tauto.
      * split; [discriminate|intros [? _]; discriminate].
    + rewrite IH. split; [intros [E _]|intros [_ E]; discriminate].
      now destruct cur.
Qed.

Lemma split_from_lstrip s : split_from [] (lstrip s) = split_from [] s.
Proof.
  induction s as [|c s IH]; [reflexivity|].
  simpl. destruct (isspace c) eqn:Hc; [exact IH|].
  simpl. now rewrite Hc.
Qed.

Lemma split_from_trailing_space c s : forall cur,
  isspace c = true -> split_from cur (s ++ [c]) = split_from cur s.
Proof.
  induction s as [|x s IH]; intros cur Hc; simpl.
  - rewrite Hc. now destruct cur.
  - destruct (isspace x); [|now apply IH].
    rewrite IH by assumption. reflexivity.
Qed.

Lemma split_from_rstrip s : forall cur,
  split_from cur (rstrip s) = split_from cur s.
Proof.
  induction s as [|c s IH] using rev_ind; intros cur; [reflexivity|].
  rewrite rstrip_snoc. destruct (isspace c) eqn:Hc; [|reflexivity].
  now rewrite IH, split_from_trailing_space.
Qed.

(** Stripping does not change the words of a string. *)
Lemma split_strip s : split (strip s) = split s.
Proof.
  unfold split, strip. now rewrite split_from_rstrip, split_from_lstrip.
Qed.

(** Splitting a single-space join of words gives the words back. *)
Lemma split_join ws :
  Forall is_word ws -> split (join [SPACE] ws) = ws.
Proof.
  unfold split. induction 1 as [|w ws [Hne Hw] Hws IH]; [reflexivity|].
  destruct ws as [|w' ws'].
  - simpl. rewrite <- (app_nil_r w) at 1.
    rewrite split_from_word by assumption. simpl. now destruct w.
  - change (join [SPACE] (w :: w' :: ws'))
      with (w ++ SPACE :: join [SPACE] (w' :: ws')).
    rewrite split_from_word by assumption. simpl app at 1.
    rewrite split_from_space by reflexivity.
    rewrite IH. now destruct w.
Qed.

Lemma join_cons_cons sep w ws :
  ws <> [] -> join sep (w :: ws) = w ++ sep ++ join sep ws.
Proof. destruct ws; [congruence|reflexivity]. Qed.

(** On a string without trailing whitespace, joining the words with one
    space is the run-collapsing of the specification. *)
Lemma join_split_collapse s :
  rstrip s = s ->
  (forall cur, no_space cur = true ->
     (cur = [] -> all_space (firstn 1 s) = true -> s = []) ->
     join [SPACE] (split_from cur s) = cur ++ collapse_runs s)
  /\ (forall c, isspace c = true -> s <> [] ->
        collapse_runs (c :: s) = SPACE :: join [SPACE] (split_from [] s)).
Proof.
  induction s as [|x s IH]; intros Hr.
  - split; [|congruence]. intros cur _ _. simpl.
    destruct cur; [reflexivity|now rewrite app_nil_r].
  - pose proof (rstrip_tail _ _ Hr) as Hr'.
    destruct (IH Hr') as [IHa IHb].
    assert (A : forall cur, no_space cur = true ->
       (cur = [] -> all_space (firstn 1 (x :: s)) = true -> x :: s = []) ->
       join [SPACE] (split_from cur (x :: s)) = cur ++ collapse_runs (x :: s)).
    { intros cur Hcur Hhead. destruct (isspace x) eqn:Hx.
      - assert (Hne : cur <> []).
        { intros ->. specialize (Hhead eq_refl). simpl in Hhead.
          rewrite Hx in Hhead. now specialize (Hhead eq_refl). }
        pose proof (rstrip_space_head _ _ Hx Hr) as Hs.
        assert (Hs' : s <> []) by (intros ->; discriminate).
        rewrite (IHb x Hx Hs').
        rewrite split_from_space by assumption.
        destruct cur as [|k cur]; [congruence|].
        rewrite join_cons_cons; [reflexivity|].
        intros E. apply split_from_empty_iff in E as [_ E]. congruence.
      - rewrite split_from_nonspace, collapse_runs_nonspace by assumption.
        rewrite IHa.
        + now rewrite <- app_assoc.
        + now apply no_space_snoc.
        + intros E. now destruct cur. }
    split; [exact A|].
    intros c Hc _. rewrite (collapse_runs_space c x s Hc).
    destruct (isspace x) eqn:Hx.
    + pose proof (rstrip_space_head _ _ Hx Hr) as Hs.
      assert (Hs' : s <> []) by (intros ->; discriminate).
      rewrite (IHb x Hx Hs'). now rewrite split_from_space.
    + f_equal.
      rewrite (A []); [reflexivity|reflexivity|].
      intros _. simpl. now rewrite Hx.
Qed.

End SplitFacts.

(* ================================================================= *)
(** ** Text normalisation *)

Section Normalisation.

Lemma normalize_words t : normalize t = join [SPACE] (split t).
Proof. unfold normalize. now rewrite split_strip. Qed.

(** The source's strip/split/join agrees with the specification's
    strip-then-collapse. *)
Lemma normalize_spec t : normalize t = spec_normalize t.
Proof.
  unfold normalize, spec_normalize, split.
  change (lit " ") with [SPACE].
  destruct (join_split_collapse (strip t) (strip_rstrip t)) as [A _].
  rewrite (A []); [reflexivity|reflexivity|].
  intros _. destruct (strip t) as [|c r] eqn:E; [reflexivity|].
  simpl. rewrite (strip_head _ _ _ E). discriminate.
Qed.

Lemma normalize_empty_iff t : normalize t = [] <-> all_space t = true.
Proof.
  rewrite normalize_words. unfold split. split; intros H.
  - destruct (split_from [] t) as [|w ws] eqn:E.
    + now apply split_from_empty_iff in E.
    + pose proof (split_words t) as F. unfold split in F. rewrite E in F.
      inversion F as [|? ? [Hne _] _]; subst.
      destruct ws; simpl in H; [congruence|].
      destruct w; [congruence|discriminate].
  - assert (E : split_from [] t = []) by now apply split_from_empty_iff.
    now rewrite E.
Qed.

Lemma process_text_input_spec t :
  _process_text_input t =
  if truthy (spec_normalize t) then ret (spec_normalize t)
  else raise (ValueError (lit "Provided text is empty after processing")).
Proof.
  unfold _process_text_input. rewrite normalize_spec.
  now destruct (spec_normalize t).
Qed.

End Normalisation.

(** C9. Normalisation is idempotent: for every string [t], normalising
    the normalised text again changes nothing,
    [normalize (normalize t) = normalize t]. *)
Theorem normalize_idempotent (t : pystr) :
  normalize (normalize t) = normalize t.
Proof.
  rewrite (normalize_words (normalize t)).
  rewrite normalize_words.
  now rewrite split_join by apply split_words.
Qed.

(** C6, amended. For every non-empty text [t] and whatever file comes
    with it, [prepare_text] strips the text, collapses each whitespace
    run to one ASCII space, returns the result when it is non-empty and
    raises the empty-after-processing [ValueError] when it is empty,
    without touching a collaborator.  [_process_text_input] does so for
    every text.  The result is the words of the text, each non-empty
    and free of whitespace, joined by single spaces. *)
Theorem prepare_text_normalizes
  (ate : option Extractor) (t : pystr) (file : option UploadFile) :
  t <> [] ->
  prepare_text ate (Some t) file = _process_text_input t
  /\ _process_text_input t =
     (if truthy (spec_normalize t)
      then (Ok (spec_normalize t), [])
      else (Raise (ValueError
                     (lit "Provided text is empty after processing")), []))
  /\ spec_normalize t = join [SPACE] (split t)
  /\ Forall is_word (split t).
Proof.
  intros Hne. split; [|split; [|split]].
  - unfold prepare_text. destruct t; [congruence|]. reflexivity.
  - apply process_text_input_spec.
  - rewrite <- normalize_spec. apply normalize_words.
  - apply split_words.
Qed.

Lemma prepare_text_normalizes_witness :
  prepare_text None (Some (lit "  hello
	 world  ")) None = (Ok (lit "hello world"), []).
Proof.
  destruct (prepare_text_normalizes None (lit "  hello
	 world  ") None) as (E1 & E2 & _); [discriminate|].
  rewrite E1, E2. reflexivity.
Defined.

(** C6, as stated, fails on the empty text: [prepare_text] with
    [text = ""] and no file raises the missing-input error, not the
    empty-after-processing one, although the normalised text is empty. *)
Lemma prepare_text_empty_text_counterexample :
  spec_normalize (lit "") = []
  /\ prepare_text None (Some (lit "")) None =
     (Raise (ValueError (lit "Either 'text' or 'file' must be provided")), [])
  /\ prepare_text None (Some (lit "")) None <>
     (Raise (ValueError (lit "Provided text is empty after processing")), []).
Proof.
  repeat split; try reflexivity. discriminate.
Qed.

(* ================================================================= *)
(** ** Decoding *)

Section Decoding.

Lemma utf8_points_nonempty bs s :
  utf8_points bs = Some s -> bs <> [] -> s <> [].
Proof.
  intros H Hne. destruct bs as [|b0 r0]; [congruence|]. clear Hne.
  cbn [utf8_points] in H.
  repeat match type of H with
         | context [if ?c then _ else _] => destruct c
         | context [match ?l with [] => _ | _ :: _ => _ end] => destruct l
         end;
    try discriminate;
    match type of H with
    | option_map _ ?o = _ => destruct o; simpl in H; [|discriminate]
    end;
    injection H as <-; discriminate.
Qed.

Lemma decode_utf8_nonempty bs s :
  decode_utf8 bs = Some s -> bs <> [] -> s <> [].
Proof.
  unfold decode_utf8. intros H Hne. apply (utf8_points_nonempty _ _ H).
  now destruct bs.
Qed.

Lemma decode_latin1_nonempty bs : bs <> [] -> decode_latin1 bs <> [].
Proof. now destruct bs. Qed.

(** The first encoding of the list that accepts the bytes wins. *)
Lemma decode_loop_first encodings bs s :
  decode_loop encodings bs = Some s ->
  exists before encoding after,
    encodings = before ++ encoding :: after
    /\ decode bs encoding = Decoded s
    /\ Forall (fun e => forall s', decode bs e <> Decoded s') before.
Proof.
  induction encodings as [|enc rest IH]; simpl; [discriminate|].
  destruct (decode bs enc) as [d| |] eqn:E.
  - intros [= <-]. exists [], enc, rest. repeat split; auto.
  - intros H. destruct (IH H) as (b & e & a & -> & D & F).
    exists (enc :: b), e, a. repeat split; auto.
    constructor; [|exact F]. intros s'. congruence.
  - intros H. destruct (IH H) as (b & e & a & -> & D & F).
    exists (enc :: b), e, a. repeat split; auto.
    constructor; [|exact F]. intros s'. congruence.
Qed.

Lemma decode_loop_fallbacks bs :
  decode_loop ENCODING_FALLBACKS bs =
  Some (match decode_utf8 bs with
        | Some s => s
        | None => decode_latin1 bs
        end).
Proof.
  unfold ENCODING_FALLBACKS. cbn [decode_loop].
  change (decode bs "utf-8") with (of_option (decode_utf8 bs)).
  change (decode bs "latin-1") with (Decoded (decode_latin1 bs)).
  now destruct (decode_utf8 bs).
Qed.

Lemma decode_text_file_eq bs name :
  _decode_text_file bs name =
  ret (match decode_utf8 bs with
       | Some s => s
       | None => decode_latin1 bs
       end).
Proof. unfold _decode_text_file. now rewrite decode_loop_fallbacks. Qed.

Lemma decode_text_file_nonempty bs name s :
  bs <> [] -> outcome (_decode_text_file bs name) = Ok s -> s <> [].
Proof.
  intros Hne. rewrite decode_text_file_eq. simpl.
  destruct (decode_utf8 bs) eqn:E; intros [= <-].
  - now apply (decode_utf8_nonempty bs).
  - now apply decode_latin1_nonempty.
Qed.

End Decoding.

(** C5. The decode fallback is total and ordered: for every byte
    sequence (so for every non-empty one) [_decode_text_file] returns,
    with the UTF-8 decoding when the bytes are valid UTF-8 and with the
    latin-1 decoding otherwise; the encodings are tried in the order
    utf-8, latin-1, cp1252, iso-8859-1 and the first that accepts wins;
    the exhaustive-failure branch is never taken. *)
Theorem decode_text_file_total (file_content : bytes) (name : pystr) :
  ENCODING_FALLBACKS = ["utf-8"; "latin-1"; "cp1252"; "iso-8859-1"]%string
  /\ _decode_text_file file_content name =
     (Ok (match decode file_content "utf-8" with
          | Decoded s => s
          | _ => decode_latin1 file_content
          end), [])
  /\ decode file_content "latin-1" = Decoded (decode_latin1 file_content)
  /\ (exists before encoding after decoded,
        ENCODING_FALLBACKS = before ++ encoding :: after
        /\ decode file_content encoding = Decoded decoded
        /\ Forall (fun e => forall s', decode file_content e <> Decoded s')
             before
        /\ outcome (_decode_text_file file_content name) = Ok decoded)
  /\ (forall e, outcome (_decode_text_file file_content name) <> Raise e).
Proof.
  pose proof (decode_loop_fallbacks file_content) as L.
  split; [reflexivity|]. split; [|split; [reflexivity|split]].
  - rewrite decode_text_file_eq.
    change (decode file_content "utf-8")
      with (of_option (decode_utf8 file_content)).
    now destruct (decode_utf8 file_content).
  - destruct (decode_loop_first _ _ _ L) as (b & enc & a & E & D & F).
    exists b, enc, a. eexists. repeat split; eauto.
    now rewrite decode_text_file_eq.
  - intros e. rewrite decode_text_file_eq. discriminate.
Qed.

(* ================================================================= *)
(** ** Release of the upload *)

(** Whatever happens, [_process_file_input] ends by closing the file:
    a run that processed [file] leaves a non-empty trace. *)
Lemma process_file_input_closes (ate : option Extractor) (file : UploadFile) :
  exists t, events (_process_file_input ate file) = t ++ [EvClose file].
Proof.
  unfold _process_file_input, try_finally.
  destruct (try_except _ _) as [r t]. now exists t.
Qed.

Lemma process_file_input_touches (ate : option Extractor) (file : UploadFile) :
  In (EvClose file) (events (_process_file_input ate file)).
Proof.
  destruct (process_file_input_closes ate file) as [t ->].
  apply in_or_app. right. now left.
Qed.

(* ================================================================= *)
(** ** Source arbitration *)

(** C1. Source arbitration of [prepare_text]: with neither text nor
    file, or with the empty text and no file, it raises the
    missing-input [ValueError]; with a non-empty text and a file it runs
    the text path and performs no interaction with the file; with the
    empty text and a file it runs the file path, which always touches
    the file. *)
Theorem prepare_text_arbitration
  (ate : option Extractor) (t : pystr) (f : UploadFile) :
  t <> [] ->
  prepare_text ate None None =
    (Raise (ValueError (lit "Either 'text' or 'file' must be provided")), [])
  /\ prepare_text ate (Some []) None =
    (Raise (ValueError (lit "Either 'text' or 'file' must be provided")), [])
  /\ prepare_text ate (Some t) (Some f) = _process_text_input t
  /\ events (prepare_text ate (Some t) (Some f)) = []
  /\ prepare_text ate (Some []) (Some f) = _process_file_input ate f
  /\ prepare_text ate None (Some f) = _process_file_input ate f
  /\ In (EvClose f) (events (_process_file_input ate f)).
Proof.
  intros Hne. destruct t as [|c t]; [congruence|].
  repeat split; try reflexivity; [|apply process_file_input_touches].
  change (prepare_text ate (Some (c :: t)) (Some f))
    with (_process_text_input (c :: t)).
  unfold _process_text_input. now destruct (normalize (c :: t)).
Qed.

Lemma prepare_text_arbitration_witness :
  prepare_text None (Some (lit "hello world")) (Some Samples.notes_txt) =
    (Ok (lit "hello world"), [])
  /\ prepare_text None (Some []) (Some Samples.notes_txt) =
    (Ok (lit "hello"), [EvRead Samples.notes_txt; EvClose Samples.notes_txt]).
Proof.
  destruct (prepare_text_arbitration None (lit "hello world")
              Samples.notes_txt) as (_ & _ & E1 & _ & E2 & _ & _);
    [discriminate|].
  rewrite E1, E2. split; reflexivity.
Defined.

(** C10. A non-empty text made only of whitespace still selects the
    text path: with a file whose processing alone succeeds,
    [prepare_text] raises the empty-after-processing [ValueError] and
    performs no interaction with the file. *)
Theorem prepare_text_blank_text_shadows_file
  (ate : option Extractor) (t : pystr) (f : UploadFile) (r : pystr) :
  t <> [] ->
  all_space t = true ->
  outcome (_process_file_input ate f) = Ok r ->
  prepare_text ate (Some t) (Some f) =
    (Raise (ValueError (lit "Provided text is empty after processing")), [])
  /\ outcome (prepare_text ate None (Some f)) = Ok r
  /\ In (EvClose f) (events (prepare_text ate None (Some f))).
Proof.
  intros Hne Hsp Hf.
  split; [|split; [exact Hf|apply process_file_input_touches]].
  destruct t as [|c t]; [congruence|].
  change (prepare_text ate (Some (c :: t)) (Some f))
    with (_process_text_input (c :: t)).
  unfold _process_text_input.
  now rewrite (proj2 (normalize_empty_iff (c :: t)) Hsp).
Qed.

Lemma prepare_text_blank_text_shadows_file_witness :
  prepare_text None (Some (lit " 	 ")) (Some Samples.notes_txt) =
    (Raise (ValueError (lit "Provided text is empty after processing")), [])
  /\ outcome (prepare_text None None (Some Samples.notes_txt)) =
     Ok (lit "hello").
Proof.
  refine ((fun H => conj (proj1 H) (proj1 (proj2 H))) _).
  apply (prepare_text_blank_text_shadows_file None (lit " 	 ")
           Samples.notes_txt (lit "hello")).
  - discriminate.
  - reflexivity.
  - reflexivity.
Defined.

(* ================================================================= *)
(** ** File processing *)

Section FileProcessing.

Variable ate : option Extractor.

Lemma bind_ret_l {A B} (a : A) (k : A -> M B) : bind (ret a) k = k a.
Proof. unfold bind, ret. now destruct (k a). Qed.

Lemma bind_raise {A B} (e : exn) (k : A -> M B) :
  bind (raise e) k = raise e.
Proof. reflexivity. Qed.

Lemma bind_perform_ok {A B} ev (a : A) (k : A -> M B) :
  bind (perform ev (Ok a)) k = (outcome (k a), ev :: events (k a)).
Proof. unfold bind, perform. now destruct (k a). Qed.

Lemma len_zero_iff bs : len bs = 0 <-> bs = [].
Proof. unfold len. destruct bs; simpl; split; try easy; lia. Qed.

Lemma validate_file_size_too_large bs name :
  MAX_FILE_SIZE < len bs ->
  _validate_file_size bs name =
  raise (HTTPException 413 (lit "File too large. Maximum size is 10.0MB")).
Proof.
  intros H. unfold _validate_file_size.
  apply N.ltb_lt in H. now rewrite H.
Qed.

Lemma validate_file_size_empty bs name :
  len bs = 0 ->
  _validate_file_size bs name = raise (HTTPException 400 (lit "File is empty")).
Proof.
  intros H. unfold _validate_file_size. now rewrite H.
Qed.

Lemma validate_file_size_ok bs name :
  0 < len bs -> len bs <= MAX_FILE_SIZE ->
  _validate_file_size bs name = ret tt.
Proof.
  intros H0 H1. unfold _validate_file_size.
  apply N.ltb_ge in H1. rewrite H1.
  destruct (N.eqb_spec (len bs) 0) as [E|E]; [lia|reflexivity].
Qed.

Lemma validate_file_type_unsupported name :
  supported name = false ->
  _validate_file_type name =
  raise (HTTPException 415
           (lit "Unsupported file type. Supported types: .txt, .rtf, .pdf, .doc, .docx")).
Proof.
  unfold supported. intros H. unfold _validate_file_type. now rewrite H.
Qed.

Lemma validate_file_type_ok name :
  supported name = true -> _validate_file_type name = ret tt.
Proof.
  unfold supported. intros H. unfold _validate_file_type. now rewrite H.
Qed.

(** The body of [_process_file_input] once the name, the type and the
    read went through. *)
Lemma process_file_input_read file name bs :
  filename file = Some name -> name <> [] ->
  supported name = true ->
  payload file = Ok bs ->
  _process_file_input ate file =
  try_finally
    (try_except
       (bind (perform (EvRead file) (Ok bs))
          (fun file_content =>
             bind (_validate_file_size file_content name)
               (fun _ =>
                  if textual name
                  then _decode_text_file file_content name
                  else _extract_text_from_file ate file_content name)))
       (fun e =>
          match e with
          | HTTPException _ _ => raise e
          | _ =>
              raise (HTTPException 500
                       (lit "Error processing file '"
                          ++ name ++ lit "': " ++ exn_str e))
          end))
    [EvClose file].
Proof.
  intros Hn Hne Hs Hp. unfold _process_file_input, fmt_filename.
  rewrite Hn, Hp. destruct name; [congruence|].
  cbn [truthy negb]. rewrite validate_file_type_ok by assumption.
  now rewrite bind_ret_l.
Qed.

Lemma process_file_input_no_name file :
  filename file = None \/ filename file = Some [] ->
  _process_file_input ate file =
  (Raise (HTTPException 400 (lit "File must have a filename")),
   [EvClose file]).
Proof.
  intros [H|H]; unfold _process_file_input; now rewrite H.
Qed.

Lemma process_file_input_unsupported file name :
  filename file = Some name -> name <> [] ->
  supported name = false ->
  _process_file_input ate file =
  (Raise (HTTPException 415
            (lit "Unsupported file type. Supported types: .txt, .rtf, .pdf, .doc, .docx")),
   [EvClose file]).
Proof.
  intros Hn Hne Hs. unfold _process_file_input. rewrite Hn.
  destruct name; [congruence|]. cbn [truthy negb].
  now rewrite validate_file_type_unsupported.
Qed.

Lemma process_file_input_too_large file name bs :
  filename file = Some name -> name <> [] ->
  supported name = true ->
  payload file = Ok bs ->
  MAX_FILE_SIZE < len bs ->
  _process_file_input ate file =
  (Raise (HTTPException 413 (lit "File too large. Maximum size is 10.0MB")),
   [EvRead file; EvClose file]).
Proof.
  intros Hn Hne Hs Hp Hl.
  rewrite (process_file_input_read file name bs) by assumption.
  cbn [bind perform]. now rewrite validate_file_size_too_large.
Qed.

Lemma process_file_input_empty file name bs :
  filename file = Some name -> name <> [] ->
  supported name = true ->
  payload file = Ok bs ->
  len bs = 0 ->
  _process_file_input ate file =
  (Raise (HTTPException 400 (lit "File is empty")),
   [EvRead file; EvClose file]).
Proof.
  intros Hn Hne Hs Hp Hl.
  rewrite (process_file_input_read file name bs) by assumption.
  cbn [bind perform]. now rewrite validate_file_size_empty.
Qed.

Lemma process_file_input_read_fault file name e :
  filename file = Some name -> name <> [] ->
  supported name = true ->
  payload file = Raise e ->
  (forall status detail, e <> HTTPException status detail) ->
  _process_file_input ate file =
  (Raise (HTTPException 500
            (lit "Error processing file '" ++ name ++ lit "': " ++ exn_str e)),
   [EvRead file; EvClose file]).
Proof.
  intros Hn Hne Hs Hp He. unfold _process_file_input, fmt_filename.
  rewrite Hn, Hp. destruct name as [|c name]; [congruence|].
  cbn [truthy negb]. rewrite validate_file_type_ok by assumption.
  destruct e as [m|st d|m]; [reflexivity| |reflexivity].
  now specialize (He st d).
Qed.

(** After a good read of an acceptable size the class of the suffix
    picks the decoder or the extractor. *)
Lemma process_file_input_dispatch file name bs :
  filename file = Some name -> name <> [] ->
  supported name = true ->
  payload file = Ok bs ->
  0 < len bs -> len bs <= MAX_FILE_SIZE ->
  _process_file_input ate file =
  try_finally
    (try_except
       (bind (perform (EvRead file) (Ok tt))
          (fun _ =>
             if textual name
             then _decode_text_file bs name
             else _extract_text_from_file ate bs name))
       (fun e =>
          match e with
          | HTTPException _ _ => raise e
          | _ =>
              raise (HTTPException 500
                       (lit "Error processing file '"
                          ++ name ++ lit "': " ++ exn_str e))
          end))
    [EvClose file].
Proof.
  intros Hn Hne Hs Hp H0 H1.
  rewrite (process_file_input_read file name bs) by assumption.
  rewrite !bind_perform_ok. cbv beta.
  rewrite validate_file_size_ok by assumption.
  now rewrite bind_ret_l.
Qed.

End FileProcessing.

Section Extraction.

Variable extractor : Extractor.

Lemma len_zeros n : len (Samples.zeros n) = n.
Proof.
  unfold len, Samples.zeros. rewrite repeat_length. apply N2Nat.id.
Qed.

Lemma extract_unavailable bs name :
  _extract_text_from_file None bs name =
  raise (HTTPException 500
           (lit "Text extraction not available. Please install textxtract library.")).
Proof. reflexivity. Qed.

Lemma extract_returns bs name s :
  extract extractor bs name = Ok s ->
  _extract_text_from_file (Some extractor) bs name =
  (if truthy (strip s) then Ok (strip s)
   else Raise (HTTPException 400
                 (lit "No text could be extracted from the file '"
                    ++ name ++ lit "'")),
   [EvExtract bs name]).
Proof.
  intros H. unfold _extract_text_from_file. rewrite H.
  destruct s as [|c s]; [reflexivity|].
  cbn [truthy negb orb]. rewrite bind_perform_ok. cbv beta.
  now destruct (strip (c :: s)).
Qed.

Lemma extract_raises bs name e :
  extract extractor bs name = Raise e ->
  (forall status detail, e <> HTTPException status detail) ->
  _extract_text_from_file (Some extractor) bs name =
  (Raise (HTTPException 500
            (lit "Failed to extract text from '"
               ++ name ++ lit "': " ++ exn_str e)),
   [EvExtract bs name]).
Proof.
  intros H He. unfold _extract_text_from_file. rewrite H.
  destruct e as [m|st d|m]; [reflexivity| |reflexivity].
  now specialize (He st d).
Qed.

Lemma truthy_strip s : truthy (strip s) = negb (all_space s).
Proof.
  destruct (all_space s) eqn:A.
  - apply strip_empty_iff in A. now rewrite A.
  - destruct (strip s) eqn:E; [|reflexivity].
    apply strip_empty_iff in E. congruence.
Qed.

End Extraction.

(** C7. Size gating at the boundary: a payload of 0 bytes is rejected
    as empty (400, "File is empty"), a payload of [MAX_FILE_SIZE + 1]
    bytes is rejected as too large (413), a payload of exactly
    [MAX_FILE_SIZE] bytes passes, and the too-large rejection happens
    exactly when the length strictly exceeds the limit; the two
    rejections surface unchanged from [_process_file_input] for a file
    with a supported name. *)
Theorem validate_file_size_boundary
  (ate : option Extractor) (name : pystr)
  (empty exact over : bytes) (f_empty f_over : UploadFile) :
  len empty = 0 ->
  len exact = MAX_FILE_SIZE ->
  len over = MAX_FILE_SIZE + 1 ->
  name <> [] -> supported name = true ->
  filename f_empty = Some name -> payload f_empty = Ok empty ->
  filename f_over = Some name -> payload f_over = Ok over ->
  MAX_FILE_SIZE = 10485760
  /\ _validate_file_size empty name =
     (Raise (HTTPException 400 (lit "File is empty")), [])
  /\ _validate_file_size over name =
     (Raise (HTTPException 413
               (lit "File too large. Maximum size is 10.0MB")), [])
  /\ _validate_file_size exact name = (Ok tt, [])
  /\ (forall bs,
        outcome (_validate_file_size bs name) =
        Raise (HTTPException 413
                 (lit "File too large. Maximum size is 10.0MB"))
        <-> MAX_FILE_SIZE < len bs)
  /\ _process_file_input ate f_empty =
     (Raise (HTTPException 400 (lit "File is empty")),
      [EvRead f_empty; EvClose f_empty])
  /\ _process_file_input ate f_over =
     (Raise (HTTPException 413
               (lit "File too large. Maximum size is 10.0MB")),
      [EvRead f_over; EvClose f_over]).
Proof.
  intros He Hx Ho Hne Hs Hn1 Hp1 Hn2 Hp2.
  split; [reflexivity|]. split; [|split; [|split; [|split; [|split]]]].
  - now apply validate_file_size_empty.
  - apply validate_file_size_too_large. rewrite Ho. lia.
  - apply validate_file_size_ok; rewrite Hx; [reflexivity|lia].
  - intros bs. unfold _validate_file_size.
    destruct (N.ltb_spec MAX_FILE_SIZE (len bs)) as [L|L].
    + simpl. tauto.
    + destruct (len bs =? 0); simpl; split; try discriminate; lia.
  - now apply (process_file_input_empty ate f_empty name empty).
  - apply (process_file_input_too_large ate f_over name over); try assumption.
    rewrite Ho. lia.
Qed.

Lemma validate_file_size_boundary_witness :
  _validate_file_size [] (lit "empty.txt") =
    (Raise (HTTPException 400 (lit "File is empty")), [])
  /\ _validate_file_size (Samples.zeros (MAX_FILE_SIZE + 1)) (lit "empty.txt") =
    (Raise (HTTPException 413
              (lit "File too large. Maximum size is 10.0MB")), [])
  /\ _validate_file_size (Samples.zeros MAX_FILE_SIZE) (lit "empty.txt") =
    (Ok tt, []).
Proof.
  destruct (validate_file_size_boundary None (lit "empty.txt")
              [] (Samples.zeros MAX_FILE_SIZE)
              (Samples.zeros (MAX_FILE_SIZE + 1))
              Samples.empty_txt
              {| filename := Some (lit "empty.txt");
                 payload := Ok (Samples.zeros (MAX_FILE_SIZE + 1)) |})
    as (_ & A & B & C & _).
  - reflexivity.
  - apply len_zeros.
  - apply len_zeros.
  - discriminate.
  - reflexivity.
  - reflexivity.
  - reflexivity.
  - reflexivity.
  - reflexivity.
  - exact (conj A (conj B C)).
Defined.

(** C8. Extraction delegate: for a binary-document file that passes the
    name, type and size checks, when the extractor returns a string
    that is empty or all whitespace the call raises the no-text error
    (400); otherwise it returns the extracted string with the
    whitespace at its two ends removed and everything between kept as
    it is ([extraction_result] spells out the two cases). *)
Theorem extract_text_trimmed_or_rejected
  (extractor : Extractor) (file : UploadFile) (name : pystr)
  (bs : bytes) (s : pystr) :
  filename file = Some name -> name <> [] ->
  supported name = true -> textual name = false ->
  payload file = Ok bs -> 0 < len bs -> len bs <= MAX_FILE_SIZE ->
  extract extractor bs name = Ok s ->
  _extract_text_from_file (Some extractor) bs name =
    (extraction_result name s, [EvExtract bs name])
  /\ prepare_text (Some extractor) None (Some file) =
    (extraction_result name s,
     [EvRead file; EvExtract bs name; EvClose file])
  /\ exists pre post,
       s = pre ++ strip s ++ post
       /\ all_space pre = true /\ all_space post = true.
Proof.
  intros Hn Hne Hs Ht Hp H0 H1 Hx.
  assert (E : _extract_text_from_file (Some extractor) bs name =
              (extraction_result name s, [EvExtract bs name])).
  { rewrite (extract_returns extractor bs name s Hx).
    unfold extraction_result. rewrite truthy_strip.
    now destruct (all_space s). }
  split; [exact E|]. split; [|apply strip_split].
  change (prepare_text (Some extractor) None (Some file))
    with (_process_file_input (Some extractor) file).
  rewrite (process_file_input_dispatch _ file name bs) by assumption.
  rewrite Ht, bind_perform_ok, E. unfold extraction_result.
  now destruct (all_space s).
Qed.

Lemma extract_text_trimmed_or_rejected_witness :
  prepare_text (Some Samples.title_extractor) None (Some Samples.scan_pdf) =
    (Ok (lit "Annual   Report"),
     [EvRead Samples.scan_pdf;
      EvExtract [x25; x50; x44; x46] (lit "scan.pdf");
      EvClose Samples.scan_pdf])
  /\ prepare_text (Some Samples.blank_extractor) None (Some Samples.scan_pdf) =
    (Raise (HTTPException 400
              (lit "No text could be extracted from the file 'scan.pdf'")),
     [EvRead Samples.scan_pdf;
      EvExtract [x25; x50; x44; x46] (lit "scan.pdf");
      EvClose Samples.scan_pdf]).
Proof.
  split.
  - refine (proj1 (proj2 (extract_text_trimmed_or_rejected
             Samples.title_extractor Samples.scan_pdf (lit "scan.pdf")
             [x25; x50; x44; x46] (lit "  Annual   Report ")
             eq_refl _ eq_refl eq_refl eq_refl eq_refl _ eq_refl))).
    + discriminate.
    + discriminate.
  - refine (proj1 (proj2 (extract_text_trimmed_or_rejected
             Samples.blank_extractor Samples.scan_pdf (lit "scan.pdf")
             [x25; x50; x44; x46] (lit "   ")
             eq_refl _ eq_refl eq_refl eq_refl eq_refl _ eq_refl))).
    + discriminate.
    + discriminate.
Defined.

(* ================================================================= *)
(** ** Batch processing *)

Section Batch.

Variable ate : option Extractor.

Lemma files_loop_cons_ok file rest acc r :
  processed ate file r ->
  files_loop ate (file :: rest) acc =
  (outcome (files_loop ate rest (acc ++ [r])),
   events (_process_file_input ate file)
     ++ events (files_loop ate rest (acc ++ [r]))).
Proof.
  unfold processed. intros H. cbn [files_loop].
  destruct (_process_file_input ate file) as [[r'|e] t]; simpl in H;
    [|discriminate].
  injection H as ->. cbn [bind ret try_except].
  destruct (files_loop ate rest (acc ++ [r])) as [o t'].
  simpl. now rewrite app_nil_r.
Qed.

Lemma files_loop_cons_fail file rest acc e :
  outcome (_process_file_input ate file) = Raise e ->
  files_loop ate (file :: rest) acc =
  (Raise (batch_failure file e), events (_process_file_input ate file)).
Proof.
  intros H. cbn [files_loop].
  destruct (_process_file_input ate file) as [[r'|e'] t]; simpl in H;
    [discriminate|].
  injection H as ->. cbn [bind raise try_except]. simpl.
  now rewrite app_nil_r.
Qed.

Lemma files_loop_ok files rs : forall acc,
  Forall2 (processed ate) files rs ->
  files_loop ate files acc = (Ok (acc ++ rs), events_of ate files).
Proof.
  intros acc H. revert acc.
  induction H as [|f r files rs Hf _ IH]; intros acc.
  - simpl. now rewrite app_nil_r.
  - rewrite (files_loop_cons_ok f files acc r Hf), IH. simpl.
    now rewrite <- app_assoc.
Qed.

Lemma files_loop_fail pre rs_pre f post e : forall acc,
  Forall2 (processed ate) pre rs_pre ->
  outcome (_process_file_input ate f) = Raise e ->
  files_loop ate (pre ++ f :: post) acc =
  (Raise (batch_failure f e), events_of ate (pre ++ [f])).
Proof.
  intros acc H He. revert acc.
  induction H as [|g r pre rs_pre Hg _ IH]; intros acc.
  - simpl app. rewrite (files_loop_cons_fail f post acc e He).
    unfold events_of. simpl. now rewrite app_nil_r.
  - simpl app. rewrite (files_loop_cons_ok g _ acc r Hg), IH. reflexivity.
Qed.

Lemma files_loop_inv files : forall acc out,
  outcome (files_loop ate files acc) = Ok out ->
  exists rs, out = acc ++ rs /\ Forall2 (processed ate) files rs.
Proof.
  induction files as [|f rest IH]; intros acc out H.
  - simpl in H. injection H as <-. exists []. now rewrite app_nil_r.
  - destruct (outcome (_process_file_input ate f)) as [r|e] eqn:E.
    + rewrite (files_loop_cons_ok f rest acc r E) in H. simpl in H.
      destruct (IH _ _ H) as (rs & -> & F).
      exists (r :: rs). rewrite <- app_assoc. split; [reflexivity|].
      now constructor.
    + rewrite (files_loop_cons_fail f rest acc e E) in H. discriminate.
Qed.

End Batch.

(** C2. Batch semantics of [prepare_text_from_files]: the empty list
    raises the missing-input [ValueError]; when every file is processed
    successfully the call returns one result per file, in the order of
    the files (and a successful call can return nothing else); when the
    files before [f] succeed and [f] fails with [e], the call stops
    there: it raises the failure of [f], wrapped by the loop's handler
    into [batch_failure f e], after the interactions of the files up to
    [f] only, whatever files follow. *)
Theorem prepare_text_from_files_batch
  (ate : option Extractor)
  (files : list UploadFile) (rs : list pystr)
  (pre : list UploadFile) (rs_pre : list pystr)
  (f : UploadFile) (e : exn) (post : list UploadFile) :
  files <> [] ->
  Forall2 (processed ate) files rs ->
  Forall2 (processed ate) pre rs_pre ->
  outcome (_process_file_input ate f) = Raise e ->
  prepare_text_from_files ate [] =
    (Raise (ValueError (lit "At least one file must be provided")), [])
  /\ prepare_text_from_files ate files = (Ok rs, events_of ate files)
  /\ List.length rs = List.length files
  /\ (forall fs out,
        outcome (prepare_text_from_files ate fs) = Ok out ->
        Forall2 (processed ate) fs out)
  /\ prepare_text_from_files ate (pre ++ f :: post) =
     (Raise (batch_failure f e), events_of ate (pre ++ [f]))
  /\ (forall post',
        prepare_text_from_files ate (pre ++ f :: post') =
        prepare_text_from_files ate (pre ++ f :: post)).
Proof.
  intros Hne Hall Hpre Hf.
  assert (Hfail : forall p,
    prepare_text_from_files ate (pre ++ f :: p) =
    (Raise (batch_failure f e), events_of ate (pre ++ [f]))).
  { intros p. unfold prepare_text_from_files.
    destruct (pre ++ f :: p) eqn:E; [now destruct pre|].
    rewrite <- E. now apply (files_loop_fail ate pre rs_pre). }
  split; [reflexivity|]. split; [|split; [|split; [|split]]].
  - unfold prepare_text_from_files. destruct files; [congruence|].
    now rewrite (files_loop_ok ate _ rs).
  - symmetry. now apply (Forall2_length Hall).
  - intros fs out H. unfold prepare_text_from_files in H.
    destruct fs as [|g fs]; [discriminate|].
    destruct (files_loop_inv ate _ _ _ H) as (rs' & -> & F). exact F.
  - apply Hfail.
  - intros post'. now rewrite !Hfail.
Qed.

Lemma prepare_text_from_files_batch_witness :
  prepare_text_from_files None [Samples.notes_txt; Samples.cafe_txt] =
    (Ok [lit "hello"; [0x63; 0x61; 0x66; 0xE9]],
     [EvRead Samples.notes_txt; EvClose Samples.notes_txt;
      EvRead Samples.cafe_txt; EvClose Samples.cafe_txt])
  /\ prepare_text_from_files None
       [Samples.notes_txt; Samples.report_xlsx; Samples.cafe_txt] =
    (Raise (HTTPException 400
              (lit "Failed to process file 'report.xlsx': 415: Unsupported file type. Supported types: .txt, .rtf, .pdf, .doc, .docx")),
     [EvRead Samples.notes_txt; EvClose Samples.notes_txt;
      EvClose Samples.report_xlsx]).
Proof.
  destruct (prepare_text_from_files_batch None
              [Samples.notes_txt; Samples.cafe_txt]
              [lit "hello"; [0x63; 0x61; 0x66; 0xE9]]
              [Samples.notes_txt] [lit "hello"]
              Samples.report_xlsx
              (HTTPException 415
                 (lit "Unsupported file type. Supported types: .txt, .rtf, .pdf, .doc, .docx"))
              [Samples.cafe_txt])
    as (_ & A & _ & _ & B & _).
  - discriminate.
  - repeat constructor.
  - repeat constructor.
  - reflexivity.
  - split; [exact A|exact B].
Defined.

(* ================================================================= *)
(** ** Non-empty results *)

Section NonEmpty.

Variable ate : option Extractor.

Lemma outcome_try_finally {A} (m : M A) cleanup :
  outcome (try_finally m cleanup) = outcome m.
Proof. now destruct m. Qed.

Lemma outcome_try_except {A} (m : M A) handler :
  outcome (try_except m handler) =
  match outcome m with
  | Ok a => Ok a
  | Raise e => outcome (handler e)
  end.
Proof.
  destruct m as [[a|e] t]; [reflexivity|].
  simpl. now destruct (handler e).
Qed.

Lemma outcome_bind {A B} (m : M A) (k : A -> M B) :
  outcome (bind m k) =
  match outcome m with
  | Ok a => outcome (k a)
  | Raise e => Raise e
  end.
Proof.
  destruct m as [[a|e] t]; [|reflexivity].
  simpl. now destruct (k a).
Qed.

Lemma extract_text_nonempty bs name s :
  outcome (_extract_text_from_file ate bs name) = Ok s -> s <> [].
Proof.
  unfold _extract_text_from_file. destruct ate as [ex|]; [|discriminate].
  rewrite outcome_try_except, outcome_bind. cbn [perform outcome fst].
  destruct (extract ex bs name) as [x|e].
  - destruct (negb (truthy x) || negb (truthy (strip x))) eqn:C.
    + discriminate.
    + apply orb_false_iff in C as [_ C]. apply negb_false_iff in C.
      intros [= <-]. now destruct (strip x).
  - now destruct e.
Qed.

(** A string returned by [_process_file_input] is never empty. *)
Lemma process_file_input_nonempty file s :
  processed ate file s -> s <> [].
Proof.
  unfold processed, _process_file_input.
  rewrite outcome_try_finally, outcome_try_except.
  destruct (filename file) as [name|]; [|discriminate].
  destruct name as [|c name]; [discriminate|].
  cbn [truthy negb]. rewrite !outcome_bind.
  destruct (outcome (_validate_file_type (c :: name))); [|now destruct e].
  cbn [perform outcome fst].
  destruct (payload file) as [bs|e]; [|now destruct e].
  rewrite outcome_bind.
  destruct (outcome (_validate_file_size bs (c :: name))) eqn:V;
    [|now destruct e].
  assert (Hbs : bs <> []).
  { intros ->. discriminate. }
  destruct (endswith_any (lower (c :: name)) SUPPORTED_TEXT_EXTENSIONS).
  - destruct (outcome (_decode_text_file bs (c :: name))) eqn:D;
      [|now destruct e].
    intros [= <-]. now apply (decode_text_file_nonempty bs (c :: name)).
  - destruct (outcome (_extract_text_from_file ate bs (c :: name))) eqn:X;
      [|now destruct e].
    intros [= <-]. now apply (extract_text_nonempty bs (c :: name)).
Qed.

Lemma process_text_input_nonempty t s :
  outcome (_process_text_input t) = Ok s -> s <> [].
Proof.
  unfold _process_text_input. destruct (normalize t); [discriminate|].
  now intros [= <-].
Qed.

End NonEmpty.

(** C4. Results are never empty: a string returned by [prepare_text],
    whichever of the text, decode and extraction paths produced it, is
    non-empty, and so is every element of a list returned by
    [prepare_text_from_files]. *)
Theorem prepared_text_nonempty
  (ate : option Extractor)
  (text : option pystr) (file : option UploadFile) (s : pystr)
  (files : list UploadFile) (rs : list pystr) :
  outcome (prepare_text ate text file) = Ok s ->
  outcome (prepare_text_from_files ate files) = Ok rs ->
  s <> [] /\ Forall (fun r => r <> []) rs.
Proof.
  intros H1 H2. split.
  - unfold prepare_text in H1.
    destruct (negb (text_truthy text) && negb (file_truthy file));
      [discriminate|].
    assert (F : outcome (call_process_file_input ate file) = Ok s -> s <> []).
    { destruct file as [f|]; [|discriminate].
      apply process_file_input_nonempty. }
    destruct text as [t|]; [|now apply F].
    destruct (truthy t); [|now apply F].
    now apply (process_text_input_nonempty t).
  - unfold prepare_text_from_files in H2.
    destruct files as [|f fs]; [discriminate|].
    destruct (files_loop_inv ate _ _ _ H2) as (rs' & -> & F).
    simpl. clear H2. induction F; constructor; auto.
    now apply (process_file_input_nonempty ate x).
Qed.

Lemma prepared_text_nonempty_witness :
  lit "caf" ++ [0xE9] <> []
  /\ Forall (fun r => r <> []) [lit "hello"; lit "Annual   Report"].
Proof.
  apply (prepared_text_nonempty (Some Samples.title_extractor)
           None (Some Samples.cafe_txt) (lit "caf" ++ [0xE9])
           [Samples.notes_txt; Samples.scan_pdf]
           [lit "hello"; lit "Annual   Report"]).
  - reflexivity.
  - reflexivity.
Defined.

(* ================================================================= *)
(** ** Failures and their status codes *)

(** C3, amended. In [prepare_text] a file that fails validation
    surfaces its own failure: an unsupported suffix as 415 with the
    full list of supported suffixes in the message, an oversized
    payload as 413, a fault of the upload object as 500 and a missing
    extractor as 500.  In [prepare_text_from_files] the failure [e] of
    the first failing file is not surfaced as it is: the loop's handler
    raises [batch_failure f e], a 400 whose message names the file and
    embeds the string form of [e]. *)
Theorem file_failure_status
  (ate : option Extractor)
  (f_type f_size f_fault f_doc : UploadFile)
  (n_type n_size n_fault n_doc : pystr)
  (big small : bytes) (fault : exn)
  (pre : list UploadFile) (rs_pre : list pystr) (post : list UploadFile) :
  filename f_type = Some n_type -> n_type <> [] ->
  supported n_type = false ->
  filename f_size = Some n_size -> n_size <> [] ->
  supported n_size = true ->
  payload f_size = Ok big -> MAX_FILE_SIZE < len big ->
  filename f_fault = Some n_fault -> n_fault <> [] ->
  supported n_fault = true ->
  payload f_fault = Raise fault ->
  (forall status detail, fault <> HTTPException status detail) ->
  filename f_doc = Some n_doc -> n_doc <> [] ->
  supported n_doc = true -> textual n_doc = false ->
  payload f_doc = Ok small -> 0 < len small -> len small <= MAX_FILE_SIZE ->
  Forall2 (processed ate) pre rs_pre ->
  let unsupported_type :=
    HTTPException 415
      (lit "Unsupported file type. Supported types: .txt, .rtf, .pdf, .doc, .docx") in
  let too_large :=
    HTTPException 413 (lit "File too large. Maximum size is 10.0MB") in
  let unexpected :=
    HTTPException 500
      (lit "Error processing file '" ++ n_fault ++ lit "': "
         ++ exn_str fault) in
  let unavailable :=
    HTTPException 500
      (lit "Text extraction not available. Please install textxtract library.") in
  prepare_text ate None (Some f_type) =
    (Raise unsupported_type, [EvClose f_type])
  /\ prepare_text ate None (Some f_size) =
    (Raise too_large, [EvRead f_size; EvClose f_size])
  /\ prepare_text ate None (Some f_fault) =
    (Raise unexpected, [EvRead f_fault; EvClose f_fault])
  /\ prepare_text None None (Some f_doc) =
    (Raise unavailable, [EvRead f_doc; EvClose f_doc])
  /\ outcome (prepare_text_from_files ate (pre ++ f_type :: post)) =
     Raise (batch_failure f_type unsupported_type)
  /\ outcome (prepare_text_from_files ate (pre ++ f_size :: post)) =
     Raise (batch_failure f_size too_large)
  /\ outcome (prepare_text_from_files ate (pre ++ f_fault :: post)) =
     Raise (batch_failure f_fault unexpected)
  /\ outcome (prepare_text_from_files None [f_doc]) =
     Raise (batch_failure f_doc unavailable)
  /\ (forall f e, exists detail,
        batch_failure f e = HTTPException 400 detail).
Proof.
  intros Ht1 Ht2 Ht3 Hs1 Hs2 Hs3 Hs4 Hs5 Hf1 Hf2 Hf3 Hf4 Hf5
    Hd1 Hd2 Hd3 Hd4 Hd5 Hd6 Hd7 Hpre.
  intros unsupported_type too_large unexpected unavailable.
  pose proof (process_file_input_unsupported ate f_type n_type Ht1 Ht2 Ht3)
    as E1.
  pose proof (process_file_input_too_large ate f_size n_size big
                Hs1 Hs2 Hs3 Hs4 Hs5) as E2.
  pose proof (process_file_input_read_fault ate f_fault n_fault fault
                Hf1 Hf2 Hf3 Hf4 Hf5) as E3.
  assert (E4 : _process_file_input None f_doc =
               (Raise unavailable, [EvRead f_doc; EvClose f_doc])).
  { rewrite (process_file_input_dispatch None f_doc n_doc small)
      by assumption.
    now rewrite Hd4. }
  assert (B : forall f e p,
    outcome (_process_file_input ate f) = Raise e ->
    outcome (prepare_text_from_files ate (pre ++ f :: p)) =
    Raise (batch_failure f e)).
  { intros f e p He. unfold prepare_text_from_files.
    destruct (pre ++ f :: p) eqn:E; [now destruct pre|].
    rewrite <- E. now rewrite (files_loop_fail ate pre rs_pre f p e). }
  repeat split.
  - exact E1.
  - exact E2.
  - exact E3.
  - exact E4.
  - apply B. now rewrite E1.
  - apply B. now rewrite E2.
  - apply B. now rewrite E3.
  - unfold prepare_text_from_files.
    rewrite (files_loop_cons_fail None f_doc [] [] unavailable);
      [reflexivity|now rewrite E4].
  - intros f e. eexists. reflexivity.
Qed.

Lemma file_failure_status_witness :
  prepare_text None None (Some Samples.report_xlsx) =
    (Raise (HTTPException 415
              (lit "Unsupported file type. Supported types: .txt, .rtf, .pdf, .doc, .docx")),
     [EvClose Samples.report_xlsx])
  /\ prepare_text None None (Some Samples.huge_pdf) =
    (Raise (HTTPException 413
              (lit "File too large. Maximum size is 10.0MB")),
     [EvRead Samples.huge_pdf; EvClose Samples.huge_pdf])
  /\ outcome (prepare_text_from_files None
                [Samples.notes_txt; Samples.huge_pdf; Samples.cafe_txt]) =
     Raise (HTTPException 400
              (lit "Failed to process file 'huge.pdf': 413: File too large. Maximum size is 10.0MB")).
Proof.
  destruct (file_failure_status None
              Samples.report_xlsx Samples.huge_pdf Samples.broken_txt
              Samples.scan_pdf
              (lit "report.xlsx") (lit "huge.pdf") (lit "broken.txt")
              (lit "scan.pdf")
              (Samples.zeros (MAX_FILE_SIZE + 1)) [x25; x50; x44; x46]
              (OtherException (lit "read failed"))
              [Samples.notes_txt] [lit "hello"] [Samples.cafe_txt])
    as (A & B & _ & _ & _ & C & _).
  - reflexivity.
  - discriminate.
  - reflexivity.
  - reflexivity.
  - discriminate.
  - reflexivity.
  - reflexivity.
  - rewrite len_zeros. reflexivity.
  - reflexivity.
  - discriminate.
  - reflexivity.
  - reflexivity.
  - discriminate.
  - reflexivity.
  - discriminate.
  - reflexivity.
  - reflexivity.
  - reflexivity.
  - reflexivity.
  - discriminate.
  - repeat constructor.
  - split; [exact A|]. split; [exact B|exact C].
Defined.

(** C3, as stated, fails in the batch: the unsupported-type failure of
    [report.xlsx] is a 415 from [prepare_text], but
    [prepare_text_from_files] raises a 400 for the same file, with
    another message. *)
Lemma batch_status_counterexample :
  outcome (prepare_text None None (Some Samples.report_xlsx)) =
    Raise (HTTPException 415
             (lit "Unsupported file type. Supported types: .txt, .rtf, .pdf, .doc, .docx"))
  /\ outcome (prepare_text_from_files None [Samples.report_xlsx]) =
    Raise (HTTPException 400
             (lit "Failed to process file 'report.xlsx': 415: Unsupported file type. Supported types: .txt, .rtf, .pdf, .doc, .docx"))
  /\ raised (prepare_text_from_files None [Samples.report_xlsx]) <>
     raised (prepare_text None None (Some Samples.report_xlsx))
  /\ outcome (prepare_text_from_files None [Samples.scan_pdf]) =
    Raise (HTTPException 400
             (lit "Failed to process file 'scan.pdf': 500: Text extraction not available. Please install textxtract library.")).
Proof.
  repeat split; try reflexivity. discriminate.
Qed.

(* ================================================================= *)
(** ** Every run of file processing *)

Section FileRuns.

Variable ate : option Extractor.


Lemma extraction_failure_http name e :
  exists status detail, extraction_failure name e = HTTPException status detail.
Proof. destruct e; simpl; eauto. Qed.


Lemma textual_supported name : textual name = true -> supported name = true.
Proof.
  unfold textual, supported, endswith_any, SUPPORTED_EXTENSIONS.
  intros H. rewrite existsb_app. apply orb_true_iff. now left.
Qed.

Lemma process_file_input_read_raises file name e :
  filename file = Some name -> name <> [] ->
  supported name = true ->
  payload file = Raise e ->
  _process_file_input ate file =
  (Raise (processing_failure file e), [EvRead file; EvClose file]).
Proof.
  intros Hn Hne Hs Hp.
  unfold _process_file_input, processing_failure, fmt_filename.
  rewrite Hn, Hp. destruct name as [|c name]; [congruence|].
  cbn [truthy negb]. rewrite validate_file_type_ok by assumption.
  now destruct e.
Qed.

Lemma extract_text_raises extractor bs name e :
  extract extractor bs name = Raise e ->
  _extract_text_from_file (Some extractor) bs name =
  (Raise (extraction_failure name e), [EvExtract bs name]).
Proof.
  intros H. unfold _extract_text_from_file, extraction_failure.
  rewrite H. now destruct e.
Qed.

(** [_process_file_input] leaves by one of the nine exits. *)
Lemma process_file_input_run file :
  file_run ate file (_process_file_input ate file).
Proof.
  destruct (filename file) as [name|] eqn:Hn;
    [|rewrite process_file_input_no_name by auto; constructor; auto].
  destruct name as [|c name];
    [rewrite process_file_input_no_name by auto; constructor; auto|].
  set (nm := c :: name) in *.
  assert (Hne : nm <> []) by discriminate.
  destruct (supported nm) eqn:Hs;
    [|rewrite (process_file_input_unsupported ate file nm) by assumption;
      now apply (run_unsupported ate file nm)].
  destruct (payload file) as [bs|e] eqn:Hp;
    [|rewrite (process_file_input_read_raises file nm e) by assumption;
      now apply (run_read_fault ate file nm)].
  destruct (N.ltb_spec MAX_FILE_SIZE (len bs)) as [L|L];
    [rewrite (process_file_input_too_large ate file nm bs) by assumption;
     now apply (run_too_large ate file nm bs)|].
  destruct (N.eq_dec (len bs) 0) as [Z|Z];
    [rewrite (process_file_input_empty ate file nm bs) by assumption;
     now apply (run_empty ate file nm bs)|].
  assert (P : 0 < len bs) by lia.
  rewrite (process_file_input_dispatch ate file nm bs) by assumption.
  rewrite bind_perform_ok.
  destruct (textual nm) eqn:Ht.
  - rewrite decode_text_file_eq.
    now apply (run_decoded ate file nm bs).
  - destruct ate as [extractor|] eqn:Ha.
    + destruct (extract extractor bs nm) as [s|e] eqn:Hx.
      * rewrite (extract_returns extractor bs nm s Hx), truthy_strip.
        replace (if negb (all_space s) then Ok (strip s) else _)
          with (extraction_result nm s)
          by (unfold extraction_result; now destruct (all_space s)).
        assert (R : try_finally
                  (try_except
                     (outcome (extraction_result nm s, [EvExtract bs nm]),
                      EvRead file
                        :: events (extraction_result nm s, [EvExtract bs nm]))
                     (fun e =>
                        match e with
                        | HTTPException _ _ => raise e
                        | _ =>
                            raise (HTTPException 500
                                     (lit "Error processing file '"
                                        ++ nm ++ lit "': " ++ exn_str e))
                        end))
                  [EvClose file] =
                (extraction_result nm s,
                 [EvRead file; EvExtract bs nm; EvClose file])).
        { unfold extraction_result. now destruct (all_space s). }
        rewrite R. now apply (run_extracted _ file nm bs extractor s).
      * rewrite (extract_text_raises extractor bs nm e Hx).
        destruct (extraction_failure_http nm e) as (st & d & E).
        assert (R : try_finally
                  (try_except
                     (outcome (Raise (extraction_failure nm e) : result pystr,
                               [EvExtract bs nm]),
                      EvRead file
                        :: events (Raise (extraction_failure nm e)
                                     : result pystr, [EvExtract bs nm]))
                     (fun e =>
                        match e with
                        | HTTPException _ _ => raise e
                        | _ =>
                            raise (HTTPException 500
                                     (lit "Error processing file '"
                                        ++ nm ++ lit "': " ++ exn_str e))
                        end))
                  [EvClose file] =
                (Raise (extraction_failure nm e),
                 [EvRead file; EvExtract bs nm; EvClose file])).
        { rewrite E. reflexivity. }
        rewrite R. now apply (run_extract_fault _ file nm bs extractor e).
    + now apply (run_unavailable None file nm bs).
Qed.

End FileRuns.

(* ================================================================= *)
(** ** Suffixes and the type check *)

Section Suffixes.

Lemma startswith_iff p : forall s,
  startswith s p = true <-> exists rest, s = p ++ rest.
Proof.
  induction p as [|a p IH]; intros s.
  - split; [intros _; now exists s|intros _; now destruct s].
  - destruct s as [|b s]; simpl.
    + split; [discriminate|intros [rest E]; discriminate].
    + rewrite andb_true_iff, N.eqb_eq, IH. split.
      * intros [-> [rest ->]]. now exists rest.
      * intros [rest [= -> ->]]. split; [reflexivity|now exists rest].
Qed.

Lemma endswith_iff s suffix :
  endswith s suffix = true <-> exists stem, s = stem ++ suffix.
Proof.
  unfold endswith. rewrite startswith_iff. split.
  - intros [rest E]. exists (rev rest).
    apply (f_equal (@rev N)) in E.
    now rewrite rev_involutive, rev_app_distr, rev_involutive in E.
  - intros [stem ->]. exists (rev stem). now rewrite rev_app_distr.
Qed.

Lemma lower_char_idem c : lower_char (lower_char c) = lower_char c.
Proof.
  unfold lower_char.
  destruct ((0x41 <=? c) && (c <=? 0x5A)) eqn:E; [|now rewrite E].
  apply andb_true_iff in E as [A B].
  apply N.leb_le in A. apply N.leb_le in B.
  destruct (N.leb_spec (c + 32) 0x5A) as [L|L]; [lia|].
  now rewrite andb_false_r.
Qed.

Lemma lower_idem s : lower (lower s) = lower s.
Proof.
  unfold lower. rewrite map_map. apply map_ext. apply lower_char_idem.
Qed.

Lemma supported_iff name :
  supported name = true <->
  exists stem ext, In ext SUPPORTED_EXTENSIONS /\ lower name = stem ++ ext.
Proof.
  unfold supported. rewrite existsb_exists. split.
  - intros (ext & I & E). apply endswith_iff in E as [stem E].
    now exists stem, ext.
  - intros (stem & ext & I & E). exists ext. split; [exact I|].
    apply endswith_iff. now exists stem.
Qed.

End Suffixes.

(** X1. The type check passes exactly when the lowered name ends with
    one of the five supported suffixes, and otherwise raises the 415;
    it does not depend on the case of the name, and a name with a
    plain-text suffix always passes. *)
Theorem validate_file_type_by_suffix (name : pystr) :
  (_validate_file_type name = (Ok tt, []) <->
   exists stem ext,
     In ext [lit ".txt"; lit ".rtf"; lit ".pdf"; lit ".doc"; lit ".docx"]
     /\ lower name = stem ++ ext)
  /\ (_validate_file_type name =
        (Raise (HTTPException 415
                  (lit "Unsupported file type. Supported types: .txt, .rtf, .pdf, .doc, .docx")),
         []) <->
      forall stem ext,
        In ext [lit ".txt"; lit ".rtf"; lit ".pdf"; lit ".doc"; lit ".docx"] ->
        lower name <> stem ++ ext)
  /\ _validate_file_type (lower name) = _validate_file_type name
  /\ textual (lower name) = textual name
  /\ (textual name = true -> _validate_file_type name = (Ok tt, [])).
Proof.
  pose proof (supported_iff name) as S.
  change SUPPORTED_EXTENSIONS
    with [lit ".txt"; lit ".rtf"; lit ".pdf"; lit ".doc"; lit ".docx"] in S.
  assert (V : _validate_file_type name =
              if supported name then (Ok tt, [])
              else (Raise (HTTPException 415
                      (lit "Unsupported file type. Supported types: .txt, .rtf, .pdf, .doc, .docx")),
                    [])).
  { unfold _validate_file_type, supported.
    now destruct (existsb _ SUPPORTED_EXTENSIONS). }
  split; [|split; [|split; [|split]]].
  - rewrite V, <- S. destruct (supported name); split; try easy.
  - rewrite V. destruct (supported name) eqn:E.
    + split; [discriminate|]. intros H.
      destruct (proj1 S eq_refl) as (stem & ext & I & L).
      now destruct (H stem ext I).
    + split; [|reflexivity]. intros _ stem ext I L.
      assert (C : false = true) by (apply S; eauto). discriminate.
  - unfold _validate_file_type. now rewrite lower_idem.
  - unfold textual. now rewrite lower_idem.
  - intros T. rewrite V. now rewrite (textual_supported name T).
Qed.

Lemma validate_file_type_by_suffix_witness :
  _validate_file_type (lit "NOTES.RTF") = (Ok tt, []).
Proof.
  apply (validate_file_type_by_suffix (lit "NOTES.RTF")). reflexivity.
Defined.

(* ================================================================= *)
(** ** What normalisation keeps *)

Section NormalisationContent.

Lemma filter_nonspace_word w :
  no_space w = true -> filter nonspace w = w.
Proof.
  unfold no_space, nonspace. induction w as [|c w IH]; [reflexivity|].
  simpl. intros H. apply andb_true_iff in H as [Hc Hw].
  rewrite Hc. now rewrite IH.
Qed.

Lemma concat_split_from s : forall cur,
  List.concat (split_from cur s) = cur ++ filter nonspace s.
Proof.
  induction s as [|c s IH]; intros cur; simpl.
  - destruct cur; simpl; now rewrite ?app_nil_r.
  - unfold nonspace at 1. destruct (isspace c) eqn:Hc; simpl.
    + destruct cur; simpl; now rewrite IH.
    + rewrite IH. now rewrite <- app_assoc.
Qed.

Lemma filter_nonspace_join ws :
  Forall is_word ws -> filter nonspace (join [SPACE] ws) = List.concat ws.
Proof.
  induction 1 as [|w ws [_ Hw] Hws IH]; [reflexivity|].
  destruct ws as [|w' ws'].
  - simpl. rewrite app_nil_r. now apply filter_nonspace_word.
  - change (join [SPACE] (w :: w' :: ws'))
      with (w ++ SPACE :: join [SPACE] (w' :: ws')).
    rewrite filter_app, filter_nonspace_word by assumption.
    change (filter nonspace (SPACE :: join [SPACE] (w' :: ws')))
      with (filter nonspace (join [SPACE] (w' :: ws'))).
    now rewrite IH.
Qed.

Lemma join_split_length s : forall cur,
  (List.length (join [SPACE] (split_from cur s))
   <= List.length cur + List.length s)%nat.
Proof.
  induction s as [|c s IH]; intros cur.
  - simpl. destruct cur; simpl; lia.
  - destruct (isspace c) eqn:Hc.
    + rewrite split_from_space by assumption.
      specialize (IH []). simpl in IH.
      destruct cur as [|k cur]; [simpl; lia|].
      destruct (split_from [] s) as [|w ws] eqn:E.
      * simpl. lia.
      * rewrite join_cons_cons by discriminate.
        rewrite !length_app. simpl in *. lia.
    + rewrite split_from_nonspace by assumption.
      specialize (IH (cur ++ [c])). rewrite length_app in IH.
      simpl in *. lia.
Qed.

End NormalisationContent.

(** X2. Normalisation only touches whitespace: the normalised text has
    the same words as the input, the same non-whitespace code points
    in the same order, and is never longer than the input. *)
Theorem normalize_keeps_content (t : pystr) :
  split (normalize t) = split t
  /\ filter nonspace (normalize t) = filter nonspace t
  /\ (List.length (normalize t) <= List.length t)%nat.
Proof.
  rewrite normalize_words. split; [|split].
  - apply split_join, split_words.
  - rewrite filter_nonspace_join by apply split_words.
    unfold split. now rewrite concat_split_from.
  - apply (join_split_length t []).
Qed.

(** X3. The texts that normalisation leaves unchanged are exactly the
    single-space joins of words (non-empty runs without whitespace);
    every normalised text is one of them. *)
Theorem normalize_fixed_points (t : pystr) :
  (normalize t = t <->
   exists ws, Forall is_word ws /\ t = join [SPACE] ws)
  /\ exists ws, Forall is_word ws /\ normalize t = join [SPACE] ws.
Proof.
  split; [split|].
  - intros E. exists (split t). split; [apply split_words|].
    now rewrite <- normalize_words.
  - intros (ws & F & ->). rewrite normalize_words.
    now rewrite split_join.
  - exists (split t). split; [apply split_words|apply normalize_words].
Qed.

(** X4. [_process_text_input] rejects a text exactly when it consists
    of whitespace only (the empty text included), always with the
    empty-after-processing [ValueError]; any other text is accepted. *)
Theorem process_text_input_rejects_blank (t : pystr) :
  (_process_text_input t =
     (Raise (ValueError (lit "Provided text is empty after processing")), [])
   <-> all_space t = true)
  /\ (_process_text_input t = (Ok (normalize t), [])
      <-> all_space t = false).
Proof.
  pose proof (normalize_empty_iff t) as E.
  unfold _process_text_input.
  destruct (normalize t) as [|c r] eqn:N; simpl.
  - assert (A : all_space t = true) by now apply E.
    rewrite A. split; split; try easy.
  - destruct (all_space t) eqn:A.
    + destruct E as [_ E]. specialize (E eq_refl). discriminate.
    + split; split; try easy.
Qed.

(* ================================================================= *)
(** ** What a run of file processing does to its collaborators *)

Ltac file_runs ate file :=
  let R := fresh "R" in
  let P := fresh "P" in
  pose proof (process_file_input_run ate file) as R;
  remember (_process_file_input ate file) as P;
  destruct R.

(** X5. Whatever the outcome, one run of [_process_file_input] closes
    the file exactly once and last, reads it at most once, and calls
    the extractor at most once, after the read and with the bytes and
    name of that file. *)
Theorem process_file_input_trace
  (ate : option Extractor) (file : UploadFile) :
  events (_process_file_input ate file) = [EvClose file]
  \/ events (_process_file_input ate file) = [EvRead file; EvClose file]
  \/ exists bs name,
       payload file = Ok bs /\ filename file = Some name
       /\ events (_process_file_input ate file) =
          [EvRead file; EvExtract bs name; EvClose file].
Proof.
  file_runs ate file; simpl; auto;
    right; right; eexists; eexists; eauto.
Qed.

(** X6. The file is read exactly when it has a non-empty name with a
    supported suffix: an upload rejected for its name or its type is
    closed without being read, whatever it holds. *)
Theorem file_read_iff_type_accepted
  (ate : option Extractor) (file : UploadFile) :
  In (EvRead file) (events (_process_file_input ate file)) <->
  exists name,
    filename file = Some name /\ name <> [] /\ supported name = true.
Proof.
  split.
  - file_runs ate file; simpl; try (intros _; eauto; fail);
      intros [C|[]]; discriminate.
  - intros (name & Hn & Hne & Hs).
    file_runs ate file; simpl; auto.
    + destruct H; congruence.
    + congruence.
Qed.



(* ================================================================= *)
(** ** Plain-text files *)

Section AsciiDecoding.

Lemma utf8_points_ascii ns :
  forallb (fun n => n <? 0x80) ns = true -> utf8_points ns = Some ns.
Proof.
  induction ns as [|n ns IH]; [reflexivity|].
  simpl forallb. intros H. apply andb_true_iff in H as [Hn Hns].
  cbn [utf8_points]. rewrite Hn, IH by assumption. reflexivity.
Qed.

Lemma cp1252_points_ascii ns :
  forallb (fun n => n <? 0x80) ns = true -> cp1252_points ns = Some ns.
Proof.
  induction ns as [|n ns IH]; [reflexivity|].
  simpl forallb. intros H. apply andb_true_iff in H as [Hn Hns].
  cbn [cp1252_points]. unfold cp1252_point. rewrite Hn, IH by assumption.
  reflexivity.
Qed.

Lemma ascii_bytes_points bs :
  forallb ascii_byte bs = true ->
  forallb (fun n => n <? 0x80) (map Byte.to_N bs) = true.
Proof.
  unfold ascii_byte. induction bs as [|b bs IH]; [reflexivity|].
  simpl. intros H. apply andb_true_iff in H as [Hb Hbs].
  now rewrite Hb, IH.
Qed.

Lemma utf8_points_length n : forall ns s,
  (List.length ns <= n)%nat ->
  utf8_points ns = Some s -> (List.length s <= List.length ns)%nat.
Proof.
  induction n as [|n IH]; intros ns s Hlen E.
  - destruct ns; [|simpl in Hlen; lia]. now injection E as <-.
  - destruct ns as [|b0 r0]; [now injection E as <-|].
    cbn [utf8_points] in E. simpl in Hlen.
    repeat match type of E with
           | context [if ?c then _ else _] => destruct c
           | context [match ?l with [] => _ | _ :: _ => _ end] =>
               destruct l
           end;
      try discriminate;
      match type of E with
      | option_map _ (utf8_points ?r) = _ =>
          destruct (utf8_points r) as [s'|] eqn:E';
          [|discriminate];
          apply IH in E'; [|simpl in *; lia];
          simpl in E; injection E as <-; simpl in *; lia
      end.
Qed.

End AsciiDecoding.

(** X8. On a payload of ASCII bytes the order of the fallback chain
    does not matter: all four encodings decode it to the same string,
    byte for byte, and that is what [_decode_text_file] returns. *)
Theorem decode_ascii_agree (bs : bytes) (name : pystr) :
  forallb ascii_byte bs = true ->
  Forall (fun encoding => decode bs encoding = Decoded (map Byte.to_N bs))
    ENCODING_FALLBACKS
  /\ _decode_text_file bs name = (Ok (map Byte.to_N bs), []).
Proof.
  intros H. apply ascii_bytes_points in H.
  assert (U : decode_utf8 bs = Some (map Byte.to_N bs))
    by now apply utf8_points_ascii.
  assert (C : decode_cp1252 bs = Some (map Byte.to_N bs))
    by now apply cp1252_points_ascii.
  split.
  - unfold ENCODING_FALLBACKS. repeat constructor.
    + change (decode bs "utf-8") with (of_option (decode_utf8 bs)).
      now rewrite U.
    + change (decode bs "cp1252") with (of_option (decode_cp1252 bs)).
      now rewrite C.
  - rewrite decode_text_file_eq. now rewrite U.
Qed.

Lemma decode_ascii_agree_witness :
  _decode_text_file [x68; x65; x6c; x6c; x6f] (lit "notes.txt") =
  (Ok (lit "hello"), []).
Proof.
  apply (decode_ascii_agree [x68; x65; x6c; x6c; x6f] (lit "notes.txt")).
  reflexivity.
Defined.

(** X9. A file with a plain-text suffix and a payload of 1 to
    [MAX_FILE_SIZE] bytes is always processed successfully: the result
    is the decoded payload as it is (not stripped, not normalised),
    non-empty and with at most one code point per byte; the file is
    read once and closed, and the extractor plays no part. *)
Theorem text_file_always_processed
  (ate : option Extractor) (file : UploadFile) (name : pystr) (bs : bytes) :
  filename file = Some name -> name <> [] ->
  textual name = true ->
  payload file = Ok bs -> 0 < len bs -> len bs <= MAX_FILE_SIZE ->
  _process_file_input ate file =
    (Ok (decoded_text bs), [EvRead file; EvClose file])
  /\ (List.length (decoded_text bs) <= List.length bs)%nat
  /\ decoded_text bs <> [].
Proof.
  intros Hn Hne Ht Hp H0 H1.
  pose proof (textual_supported name Ht) as Hs.
  split; [|split].
  - rewrite (process_file_input_dispatch ate file name bs) by assumption.
    rewrite Ht, bind_perform_ok, decode_text_file_eq. reflexivity.
  - unfold decoded_text, decode_latin1.
    destruct (decode_utf8 bs) as [s|] eqn:E; [|now rewrite length_map].
    unfold decode_utf8 in E. rewrite <- (length_map Byte.to_N bs).
    now apply (utf8_points_length _ _ _ (le_n _) E).
  - assert (bs <> []) by (intros ->; discriminate).
    unfold decoded_text. destruct (decode_utf8 bs) eqn:E.
    + now apply (decode_utf8_nonempty bs).
    + now apply decode_latin1_nonempty.
Qed.

Lemma text_file_always_processed_witness :
  _process_file_input None Samples.notes_rtf =
  (Ok [0x68; 0x69; 0x0A], [EvRead Samples.notes_rtf; EvClose Samples.notes_rtf]).
Proof.
  refine (proj1 (text_file_always_processed None Samples.notes_rtf
                   (lit "NOTES.RTF") [x68; x69; x0a]
                   eq_refl _ eq_refl eq_refl eq_refl _)); discriminate.
Defined.

(** X10. Processing a file with a plain-text suffix does not depend on
    the extractor: it gives the same outcome and interactions whether
    the extractor is missing or present, and never calls it. *)
Theorem text_file_ignores_extractor
  (ate1 ate2 : option Extractor) (file : UploadFile) (name : pystr) :
  filename file = Some name ->
  textual name = true ->
  _process_file_input ate1 file = _process_file_input ate2 file
  /\ forall bs n,
       ~ In (EvExtract bs n) (events (_process_file_input ate1 file)).
Proof.
  intros Hn Ht.
  assert (E : forall a b,
             _process_file_input a file = _process_file_input b file).
  { intros a b. pose proof (textual_supported name Ht) as Hs.
    destruct name as [|c name].
    - now rewrite !process_file_input_no_name by auto.
    - assert (Hne : c :: name <> []) by discriminate.
      destruct (payload file) as [bs|e] eqn:Hp.
      + destruct (N.ltb_spec MAX_FILE_SIZE (len bs)) as [L|L].
        * now rewrite !(process_file_input_too_large _ file (c :: name) bs)
            by assumption.
        * destruct (N.eq_dec (len bs) 0) as [Z|Z].
          -- now rewrite !(process_file_input_empty _ file (c :: name) bs)
               by assumption.
          -- assert (0 < len bs) by lia.
             rewrite !(process_file_input_dispatch _ file (c :: name) bs)
               by assumption.
             now rewrite Ht.
      + now rewrite !(process_file_input_read_raises _ file (c :: name) e)
          by assumption. }
  split; [apply E|].
  intros bs n.
  file_runs ate1 file; simpl; intros I;
    try (destruct I as [I|[I|[]]]; discriminate);
    try (destruct I as [I|[]]; discriminate);
    congruence.
Qed.

Lemma text_file_ignores_extractor_witness :
  _process_file_input None Samples.notes_txt =
  _process_file_input (Some Samples.blank_extractor) Samples.notes_txt.
Proof.
  apply (text_file_ignores_extractor None (Some Samples.blank_extractor)
           Samples.notes_txt (lit "notes.txt")); reflexivity.
Defined.

(* ================================================================= *)
(** ** Failures of the extractor *)




(* ================================================================= *)
(** ** How batches compose and fail *)

Section BatchComposition.

Variable ate : option Extractor.

Lemma files_loop_acc fs : forall acc,
  files_loop ate fs acc =
  (match outcome (files_loop ate fs []) with
   | Ok rs => Ok (acc ++ rs)
   | Raise e => Raise e
   end,
   events (files_loop ate fs [])).
Proof.
  induction fs as [|f rest IH]; intros acc.
  - simpl. now rewrite app_nil_r.
  - destruct (outcome (_process_file_input ate f)) as [r|e] eqn:E.
    + rewrite (files_loop_cons_ok ate f rest acc r E).
      rewrite (files_loop_cons_ok ate f rest [] r E).
      rewrite (IH (acc ++ [r])), (IH ([] ++ [r])). simpl.
      destruct (outcome (files_loop ate rest [])); [|reflexivity].
      now rewrite <- app_assoc.
    + rewrite !(files_loop_cons_fail ate f rest _ e E). reflexivity.
Qed.

Lemma files_loop_app xs rs ys : forall acc,
  Forall2 (processed ate) xs rs ->
  files_loop ate (xs ++ ys) acc =
  (outcome (files_loop ate ys (acc ++ rs)),
   events_of ate xs ++ events (files_loop ate ys (acc ++ rs))).
Proof.
  intros acc H. revert acc.
  induction H as [|f r xs rs Hf _ IH]; intros acc.
  - simpl. rewrite app_nil_r. now destruct (files_loop ate ys acc).
  - simpl app. rewrite (files_loop_cons_ok ate f _ acc r Hf), IH.
    simpl. now rewrite <- !app_assoc.
Qed.

Lemma files_loop_raise_app xs ys : forall acc e,
  outcome (files_loop ate xs acc) = Raise e ->
  files_loop ate (xs ++ ys) acc = files_loop ate xs acc.
Proof.
  induction xs as [|f rest IH]; intros acc e H; [discriminate|].
  simpl app.
  destruct (outcome (_process_file_input ate f)) as [r|c] eqn:E.
  - rewrite (files_loop_cons_ok ate f rest acc r E) in H.
    rewrite (files_loop_cons_ok ate f (rest ++ ys) acc r E).
    rewrite (files_loop_cons_ok ate f rest acc r E).
    simpl in H. now rewrite (IH _ _ H).
  - rewrite (files_loop_cons_fail ate f (rest ++ ys) acc c E).
    now rewrite (files_loop_cons_fail ate f rest acc c E).
Qed.



End BatchComposition.

(** X12. Batches compose: for two non-empty lists of files, processing
    their concatenation is processing the first and then the second.
    When the first succeeds the results and the interactions are those
    of the two batches put end to end (or the failure of the second
    after the interactions of both); when the first fails the second
    is never touched. *)
Theorem prepare_text_from_files_app
  (ate : option Extractor) (xs ys : list UploadFile) :
  xs <> [] -> ys <> [] ->
  prepare_text_from_files ate (xs ++ ys) =
  match outcome (prepare_text_from_files ate xs) with
  | Ok rs =>
      (match outcome (prepare_text_from_files ate ys) with
       | Ok rs' => Ok (rs ++ rs')
       | Raise e => Raise e
       end,
       events (prepare_text_from_files ate xs)
         ++ events (prepare_text_from_files ate ys))
  | Raise _ => prepare_text_from_files ate xs
  end.
Proof.
  intros Hx Hy.
  assert (A : prepare_text_from_files ate (xs ++ ys) =
              files_loop ate (xs ++ ys) []).
  { destruct xs; [congruence|reflexivity]. }
  assert (B : prepare_text_from_files ate xs = files_loop ate xs []).
  { destruct xs; [congruence|reflexivity]. }
  assert (C : prepare_text_from_files ate ys = files_loop ate ys []).
  { destruct ys; [congruence|reflexivity]. }
  rewrite A, B, C.
  destruct (outcome (files_loop ate xs [])) as [rs|e] eqn:E.
  - destruct (files_loop_inv ate _ _ _ E) as (rs' & -> & F). simpl.
    rewrite (files_loop_app ate xs rs' ys [] F).
    rewrite (files_loop_ok ate xs rs' [] F). simpl.
    now rewrite (files_loop_acc ate ys rs').
  - apply (files_loop_raise_app ate xs ys [] e E).
Qed.

Lemma prepare_text_from_files_app_witness :
  prepare_text_from_files None
    ([Samples.notes_txt] ++ [Samples.notes_rtf; Samples.report_xlsx]) =
  (Raise (HTTPException 400
            (lit "Failed to process file 'report.xlsx': 415: Unsupported file type. Supported types: .txt, .rtf, .pdf, .doc, .docx")),
   [EvRead Samples.notes_txt; EvClose Samples.notes_txt;
    EvRead Samples.notes_rtf; EvClose Samples.notes_rtf;
    EvClose Samples.report_xlsx]).
Proof.
  rewrite (prepare_text_from_files_app None [Samples.notes_txt]
             [Samples.notes_rtf; Samples.report_xlsx]);
    [reflexivity|discriminate|discriminate].
Defined.



(** X14. A batch of one file does what [prepare_text] does on that
    file alone: the same interactions, the same result as a one-element
    list, and on failure the same exception wrapped by the batch
    handler. *)
Theorem prepare_text_from_files_singleton
  (ate : option Extractor) (f : UploadFile) :
  prepare_text_from_files ate [f] =
  (match outcome (prepare_text ate None (Some f)) with
   | Ok r => Ok [r]
   | Raise e =>
       Raise (HTTPException 400
                (lit "Failed to process file '" ++ fmt_filename f
                   ++ lit "': " ++ exn_str e))
   end,
   events (prepare_text ate None (Some f))).
Proof.
  change (prepare_text ate None (Some f)) with (_process_file_input ate f).
  change (prepare_text_from_files ate [f]) with (files_loop ate [f] []).
  destruct (outcome (_process_file_input ate f)) as [r|e] eqn:E.
  - rewrite (files_loop_cons_ok ate f [] [] r E). simpl.
    now rewrite app_nil_r.
  - now rewrite (files_loop_cons_fail ate f [] [] e E).
Qed.



(** X16. An upload whose name is missing ([None]) or empty is rejected
    with the 400 "File must have a filename" whatever it holds and
    whatever the extractor: it is closed but never read, and in a batch
    its failure is reported under the printed name. *)
Theorem nameless_file_rejected
  (ate : option Extractor) (file : UploadFile) :
  filename file = None \/ filename file = Some [] ->
  prepare_text ate None (Some file) =
    (Raise (HTTPException 400 (lit "File must have a filename")),
     [EvClose file])
  /\ prepare_text_from_files ate [file] =
    (Raise (HTTPException 400
              (lit "Failed to process file '"
                 ++ match filename file with
                    | Some _ => []
                    | None => lit "None"
                    end
                 ++ lit "': 400: File must have a filename")),
     [EvClose file]).
Proof.
  intros H.
  assert (E : _process_file_input ate file =
              (Raise (HTTPException 400 (lit "File must have a filename")),
               [EvClose file]))
    by now apply process_file_input_no_name.
  split; [exact E|].
  change (prepare_text_from_files ate [file])
    with (files_loop ate [file] []).
  rewrite (files_loop_cons_fail ate file [] []
             (HTTPException 400 (lit "File must have a filename")))
    by now rewrite E.
  rewrite E. unfold batch_failure, fmt_filename.
  now destruct H as [-> | ->].
Qed.

Lemma nameless_file_rejected_witness :
  prepare_text None None (Some Samples.nameless) =
  (Raise (HTTPException 400 (lit "File must have a filename")),
   [EvClose Samples.nameless]).
Proof.
  apply (nameless_file_rejected None Samples.nameless). now left.
Defined.
